(** * TimeBankFHE: a shallow embedding of the ledger contract

    The contract [TimeBankFHE] (Solidity, pragma ^0.8.24) is embedded as
    functions over an explicit storage record.  Storage mappings are finite
    maps read with the Solidity default for a missing key, [uint256] values
    are integers whose arithmetic is checked (an overflow reverts with the
    arithmetic panic), and a reverted call leaves the storage untouched and
    emits nothing.  The FHE library and the decryption oracle are outside the
    contract and are taken as an interface.  Arguments and timestamps are
    integers; the properties below do not need them to lie in the range of
    their Solidity type. *)

From Stdlib Require Import ZArith List Lia Bool.
From Stdlib Require Import Strings.String Strings.Byte.
From stdpp Require Import base gmap list.

Open Scope Z_scope.

(** ** Values of the EVM *)

Definition MAX_UINT256 : Z := 2 ^ 256 - 1.

(** An encrypted 32-bit integer is a [bytes32] handle; a local declared
    without a value holds the zero handle. *)
Definition euint32 : Type := Z.
Definition euint32_default : euint32 := 0.

Inductive Error : Type :=
  | NotOwner
  | NotProvider
  | PausedError
  | CooldownActive
  | BatchClosedError
  | ReplayError
  | StateMismatchError
  | InvalidDecryption
  | ErrorString (reason : string)   (* revert("...") *)
  | Panic (code : Z)                (* 0x11: checked arithmetic overflowed *)
  | InvalidProof.                   (* raised inside FHE.checkSignatures *)

Inductive Event : Type :=
  | OwnershipTransferred (previousOwner newOwner : Z)
  | ProviderAdded (provider : Z)
  | ProviderRemoved (provider : Z)
  | Paused (account : Z)
  | Unpaused (account : Z)
  | CooldownSecondsSet (oldCooldownSeconds newCooldownSeconds : Z)
  | BatchOpened (batchId : Z)
  | BatchClosed (batchId : Z)
  | TimeDeposited (depositor batchId : Z) (encryptedHours : euint32)
  | TimeWithdrawn (withdrawer batchId : Z) (encryptedHours : euint32)
  | DecryptionRequested (requestId batchId : Z)
  | DecryptionCompleted (requestId batchId totalDeposited totalWithdrawn : Z).

Inductive Result (A : Type) : Type :=
  | Ok (a : A)
  | Revert (e : Error).
Arguments Ok {A} a.
Arguments Revert {A} e.

(** ** Storage *)

Record DecryptionContext : Type := {
  batchId : Z;
  stateHash : Z;
  processed : bool
}.

Definition emptyContext : DecryptionContext :=
  {| batchId := 0; stateHash := 0; processed := false |}.

Record State : Type := {
  owner : Z;
  isProvider : gmap Z bool;
  paused : bool;
  cooldownSeconds : Z;
  lastSubmissionTime : gmap Z Z;
  lastDecryptionRequestTime : gmap Z Z;
  currentBatchId : Z;
  isBatchClosed : gmap Z bool;
  decryptionContexts : gmap Z DecryptionContext
}.

(** Storage before the constructor runs: every slot is zero. *)
Definition zeroState : State :=
  {| owner := 0; isProvider := ∅; paused := false; cooldownSeconds := 0;
     lastSubmissionTime := ∅; lastDecryptionRequestTime := ∅;
     currentBatchId := 0; isBatchClosed := ∅; decryptionContexts := ∅ |}.

(** Reading a mapping: a key never written reads as the zero value. *)
Definition readBool (m : gmap Z bool) (k : Z) : bool := default false (m !! k).
Definition readUint (m : gmap Z Z) (k : Z) : Z := default 0 (m !! k).
Definition readContext (m : gmap Z DecryptionContext) (k : Z) : DecryptionContext :=
  default emptyContext (m !! k).

Definition set_owner (v : Z) (s : State) : State :=
  {| owner := v; isProvider := isProvider s; paused := paused s;
     cooldownSeconds := cooldownSeconds s;
     lastSubmissionTime := lastSubmissionTime s;
     lastDecryptionRequestTime := lastDecryptionRequestTime s;
     currentBatchId := currentBatchId s; isBatchClosed := isBatchClosed s;
     decryptionContexts := decryptionContexts s |}.

Definition set_isProvider (k : Z) (v : bool) (s : State) : State :=
  {| owner := owner s; isProvider := <[k := v]> (isProvider s); paused := paused s;
     cooldownSeconds := cooldownSeconds s;
     lastSubmissionTime := lastSubmissionTime s;
     lastDecryptionRequestTime := lastDecryptionRequestTime s;
     currentBatchId := currentBatchId s; isBatchClosed := isBatchClosed s;
     decryptionContexts := decryptionContexts s |}.

Definition set_paused (v : bool) (s : State) : State :=
  {| owner := owner s; isProvider := isProvider s; paused := v;
     cooldownSeconds := cooldownSeconds s;
     lastSubmissionTime := lastSubmissionTime s;
     lastDecryptionRequestTime := lastDecryptionRequestTime s;
     currentBatchId := currentBatchId s; isBatchClosed := isBatchClosed s;
     decryptionContexts := decryptionContexts s |}.

Definition set_cooldownSeconds (v : Z) (s : State) : State :=
  {| owner := owner s; isProvider := isProvider s; paused := paused s;
     cooldownSeconds := v;
     lastSubmissionTime := lastSubmissionTime s;
     lastDecryptionRequestTime := lastDecryptionRequestTime s;
     currentBatchId := currentBatchId s; isBatchClosed := isBatchClosed s;
     decryptionContexts := decryptionContexts s |}.

Definition set_lastSubmissionTime (k v : Z) (s : State) : State :=
  {| owner := owner s; isProvider := isProvider s; paused := paused s;
     cooldownSeconds := cooldownSeconds s;
     lastSubmissionTime := <[k := v]> (lastSubmissionTime s);
     lastDecryptionRequestTime := lastDecryptionRequestTime s;
     currentBatchId := currentBatchId s; isBatchClosed := isBatchClosed s;
     decryptionContexts := decryptionContexts s |}.

Definition set_lastDecryptionRequestTime (k v : Z) (s : State) : State :=
  {| owner := owner s; isProvider := isProvider s; paused := paused s;
     cooldownSeconds := cooldownSeconds s;
     lastSubmissionTime := lastSubmissionTime s;
     lastDecryptionRequestTime := <[k := v]> (lastDecryptionRequestTime s);
     currentBatchId := currentBatchId s; isBatchClosed := isBatchClosed s;
     decryptionContexts := decryptionContexts s |}.

Definition set_currentBatchId (v : Z) (s : State) : State :=
  {| owner := owner s; isProvider := isProvider s; paused := paused s;
     cooldownSeconds := cooldownSeconds s;
     lastSubmissionTime := lastSubmissionTime s;
     lastDecryptionRequestTime := lastDecryptionRequestTime s;
     currentBatchId := v; isBatchClosed := isBatchClosed s;
     decryptionContexts := decryptionContexts s |}.

Definition set_isBatchClosed (k : Z) (v : bool) (s : State) : State :=
  {| owner := owner s; isProvider := isProvider s; paused := paused s;
     cooldownSeconds := cooldownSeconds s;
     lastSubmissionTime := lastSubmissionTime s;
     lastDecryptionRequestTime := lastDecryptionRequestTime s;
     currentBatchId := currentBatchId s;
     isBatchClosed := <[k := v]> (isBatchClosed s);
     decryptionContexts := decryptionContexts s |}.

Definition set_decryptionContext (k : Z) (v : DecryptionContext) (s : State) : State :=
  {| owner := owner s; isProvider := isProvider s; paused := paused s;
     cooldownSeconds := cooldownSeconds s;
     lastSubmissionTime := lastSubmissionTime s;
     lastDecryptionRequestTime := lastDecryptionRequestTime s;
     currentBatchId := currentBatchId s; isBatchClosed := isBatchClosed s;
     decryptionContexts := <[k := v]> (decryptionContexts s) |}.

Arguments readBool : simpl never.
Arguments readUint : simpl never.
Arguments readContext : simpl never.
Arguments set_owner : simpl never.
Arguments set_isProvider : simpl never.
Arguments set_paused : simpl never.
Arguments set_cooldownSeconds : simpl never.
Arguments set_lastSubmissionTime : simpl never.
Arguments set_lastDecryptionRequestTime : simpl never.
Arguments set_currentBatchId : simpl never.
Arguments set_isBatchClosed : simpl never.
Arguments set_decryptionContext : simpl never.

(** ** The monad of a call: storage, emitted events, revert *)

Definition Contract (A : Type) : Type := State -> Result (A * State * list Event).

Definition ret {A} (a : A) : Contract A := fun s => Ok (a, s, []).

Definition bind {A B} (m : Contract A) (k : A -> Contract B) : Contract B :=
  fun s =>
    match m s with
    | Ok (a, s1, ev1) =>
        match k a s1 with
        | Ok (b, s2, ev2) => Ok (b, s2, ev1 ++ ev2)
        | Revert e => Revert e
        end
    | Revert e => Revert e
    end.

Definition revert {A} (e : Error) : Contract A := fun _ => Revert e.
Definition emit (e : Event) : Contract unit := fun s => Ok (tt, s, [e]).
Definition sload {A} (f : State -> A) : Contract A := fun s => Ok (f s, s, []).
Definition sstore (f : State -> State) : Contract unit := fun s => Ok (tt, f s, []).

Notation "'let*' x ':=' m 'in' k" := (bind m (fun x => k))
  (at level 10, x name, m at level 100, k at level 200).

(** [a + b] on [uint256] as Solidity 0.8 compiles it. *)
Definition checked_add (a b : Z) : Contract Z :=
  if a + b <=? MAX_UINT256 then ret (a + b) else revert (Panic 17).

(** The transaction context of a call. *)
Record Msg : Type := {
  sender : Z;      (* msg.sender *)
  timestamp : Z    (* block.timestamp *)
}.

(** ** The FHE library, as the contract uses it *)

Class FHEVM : Type := {
  asEuint32 : Z -> euint32;
  FHE_add : euint32 -> euint32 -> euint32;
  isInitialized : euint32 -> bool;
  toBytes32 : euint32 -> Z;
  (* FHE.checkSignatures returns normally on [true] and reverts on [false] *)
  checkSignatures : Z -> list byte -> list byte -> bool;
  (* keccak256(abi.encode(cts, addr)) *)
  keccak256_encode : list Z -> Z -> Z
}.

(** Big-endian reading of a byte string, [uint32(bytes4(b))] on four bytes. *)
Definition be_uint (bs : list byte) : Z :=
  fold_left (fun acc b => acc * 256 + Z.of_N (Byte.to_N b)) bs 0.

Section TimeBankFHE.

Context {fhe : FHEVM}.
(** [address(this)] *)
Variable this : Z.

(** *** Modifiers *)

Definition onlyOwner (msg : Msg) : Contract unit :=
  let* o := sload owner in
  if negb (sender msg =? o) then revert NotOwner else ret tt.

Definition onlyProvider (msg : Msg) : Contract unit :=
  let* p := sload (fun s => readBool (isProvider s) (sender msg)) in
  if negb p then revert NotProvider else ret tt.

Definition whenNotPaused : Contract unit :=
  let* p := sload paused in
  if p then revert PausedError else ret tt.

Definition checkCooldown (msg : Msg) (account : Z) (lastTimeMap : State -> gmap Z Z)
  : Contract unit :=
  let* last := sload (fun s => readUint (lastTimeMap s) account) in
  let* cd := sload cooldownSeconds in
  let* limit := checked_add last cd in
  if timestamp msg <? limit then revert CooldownActive else ret tt.

(** *** Functions *)

Definition constructor (msg : Msg) : Contract unit :=
  let* _ := sstore (set_owner (sender msg)) in
  let* o := sload owner in
  let* _ := sstore (set_isProvider o true) in
  let* _ := emit (ProviderAdded o) in
  let* _ := sstore (set_currentBatchId 1) in
  let* b := sload currentBatchId in
  let* _ := emit (BatchOpened b) in
  sstore (set_cooldownSeconds 60).

Definition transferOwnership (msg : Msg) (newOwner : Z) : Contract unit :=
  let* _ := onlyOwner msg in
  let* previousOwner := sload owner in
  let* _ := sstore (set_owner newOwner) in
  emit (OwnershipTransferred previousOwner newOwner).

Definition addProvider (msg : Msg) (provider : Z) : Contract unit :=
  let* _ := onlyOwner msg in
  let* p := sload (fun s => readBool (isProvider s) provider) in
  if negb p then
    let* _ := sstore (set_isProvider provider true) in
    emit (ProviderAdded provider)
  else ret tt.

Definition removeProvider (msg : Msg) (provider : Z) : Contract unit :=
  let* _ := onlyOwner msg in
  let* p := sload (fun s => readBool (isProvider s) provider) in
  if p then
    let* _ := sstore (set_isProvider provider false) in
    emit (ProviderRemoved provider)
  else ret tt.

Definition pause (msg : Msg) : Contract unit :=
  let* _ := onlyOwner msg in
  let* _ := whenNotPaused in
  let* _ := sstore (set_paused true) in
  emit (Paused (sender msg)).

Definition unpause (msg : Msg) : Contract unit :=
  let* _ := onlyOwner msg in
  let* _ := sstore (set_paused false) in
  emit (Unpaused (sender msg)).

Definition setCooldownSeconds (msg : Msg) (newCooldownSeconds : Z) : Contract unit :=
  let* _ := onlyOwner msg in
  let* oldCooldownSeconds := sload cooldownSeconds in
  let* _ := sstore (set_cooldownSeconds newCooldownSeconds) in
  emit (CooldownSecondsSet oldCooldownSeconds newCooldownSeconds).

Definition openNewBatch (msg : Msg) : Contract unit :=
  let* _ := onlyOwner msg in
  let* b := sload currentBatchId in
  let* b' := checked_add b 1 in
  let* _ := sstore (set_currentBatchId b') in
  let* b'' := sload currentBatchId in
  emit (BatchOpened b'').

Definition closeCurrentBatch (msg : Msg) : Contract unit :=
  let* _ := onlyOwner msg in
  let* b := sload currentBatchId in
  let* _ := sstore (set_isBatchClosed b true) in
  emit (BatchClosed b).

(** The sum with an encrypted zero is computed and dropped. *)
Definition _initIfNeeded (v : euint32) : Contract unit :=
  let _ := FHE_add v (asEuint32 0) in
  ret tt.

Definition depositTime (msg : Msg) (hours : Z) : Contract unit :=
  let* _ := onlyProvider msg in
  let* _ := whenNotPaused in
  let* _ := checkCooldown msg (sender msg) lastSubmissionTime in
  let* b := sload currentBatchId in
  let* closed := sload (fun s => readBool (isBatchClosed s) b) in
  if closed then revert BatchClosedError else
  let encryptedHours := asEuint32 hours in
  let* _ := _initIfNeeded encryptedHours in
  let* _ := emit (TimeDeposited (sender msg) b encryptedHours) in
  sstore (set_lastSubmissionTime (sender msg) (timestamp msg)).

Definition withdrawTime (msg : Msg) (hours : Z) : Contract unit :=
  let* _ := onlyProvider msg in
  let* _ := whenNotPaused in
  let* _ := checkCooldown msg (sender msg) lastSubmissionTime in
  let* b := sload currentBatchId in
  let* closed := sload (fun s => readBool (isBatchClosed s) b) in
  if closed then revert BatchClosedError else
  let encryptedHours := asEuint32 hours in
  let* _ := _initIfNeeded encryptedHours in
  let* _ := emit (TimeWithdrawn (sender msg) b encryptedHours) in
  sstore (set_lastSubmissionTime (sender msg) (timestamp msg)).

Definition _hashCiphertexts (cts : list Z) : Z := keccak256_encode cts this.

(** The two locals [totalDeposits], [totalWithdrawals] of
    [requestBatchSummary] as they stand when [cts] is filled: both start as
    the zero handle and go through the three conditionals of the body. *)
Definition requestTotals : euint32 * euint32 :=
  let totalDeposits := euint32_default in
  let totalWithdrawals := euint32_default in
  let initialized := false in
  let '(initialized, totalDeposits) :=
    if isInitialized totalDeposits then (true, totalDeposits)
    else (initialized, asEuint32 0) in
  let '(initialized, totalWithdrawals) :=
    if isInitialized totalWithdrawals then (true, totalWithdrawals)
    else (initialized, asEuint32 0) in
  let totalDeposits :=
    if negb initialized then FHE_add totalDeposits (asEuint32 0)
    else totalDeposits in
  (totalDeposits, totalWithdrawals).

(** [requestId] is the value [FHE.requestDecryption] hands back. *)
Definition requestBatchSummary (msg : Msg) (batchId_ : Z) (requestId : Z)
  : Contract unit :=
  let* _ := onlyProvider msg in
  let* _ := whenNotPaused in
  let* _ := checkCooldown msg (sender msg) lastDecryptionRequestTime in
  let* closed := sload (fun s => readBool (isBatchClosed s) batchId_) in
  if negb closed then revert (ErrorString "Batch not closed") else
  let '(totalDeposits, totalWithdrawals) := requestTotals in
  let cts := [toBytes32 totalDeposits; toBytes32 totalWithdrawals] in
  let stateHash_ := _hashCiphertexts cts in
  let* _ := sstore (set_decryptionContext requestId
              {| batchId := batchId_; stateHash := stateHash_; processed := false |}) in
  let* _ := emit (DecryptionRequested requestId batchId_) in
  sstore (set_lastDecryptionRequestTime (sender msg) (timestamp msg)).

(** The locals of [myCallback] when its [cts] is filled. *)
Definition callbackTotals : euint32 * euint32 :=
  let totalDeposits := euint32_default in
  let totalWithdrawals := euint32_default in
  let initialized := false in
  let initialized := if isInitialized totalDeposits then true else initialized in
  let initialized := if isInitialized totalWithdrawals then true else initialized in
  let totalDeposits :=
    if negb initialized then FHE_add totalDeposits (asEuint32 0)
    else totalDeposits in
  (totalDeposits, totalWithdrawals).

Definition myCallback (requestId : Z) (cleartexts proof : list byte) : Contract unit :=
  let* ctx := sload (fun s => readContext (decryptionContexts s) requestId) in
  if processed ctx then revert ReplayError else
  let batchId_ := batchId ctx in
  let '(totalDeposits, totalWithdrawals) := callbackTotals in
  let cts := [toBytes32 totalDeposits; toBytes32 totalWithdrawals] in
  let currentHash := _hashCiphertexts cts in
  let* stored := sload (fun s => stateHash (readContext (decryptionContexts s) requestId)) in
  if negb (currentHash =? stored) then revert StateMismatchError else
  if negb (checkSignatures requestId cleartexts proof) then revert InvalidProof else
  if negb (Z.of_nat (length cleartexts) =? 8) then revert InvalidDecryption else
  let totalDepositedCleartext := be_uint (take 4 cleartexts) in
  let totalWithdrawnCleartext := be_uint (take 4 (drop 4 cleartexts)) in
  let* _ := sstore (fun s =>
              let c := readContext (decryptionContexts s) requestId in
              set_decryptionContext requestId
                {| batchId := batchId c; stateHash := stateHash c; processed := true |} s) in
  emit (DecryptionCompleted requestId batchId_ totalDepositedCleartext totalWithdrawnCleartext).

(** An internal view function; no function of the contract calls it. *)
Definition _requireInitialized (v : euint32) : Contract unit :=
  if negb (isInitialized v) then revert (ErrorString "FHE value not initialized")
  else ret tt.

(** *** Transactions *)

Inductive Call : Type :=
  | call_transferOwnership (newOwner : Z)
  | call_addProvider (provider : Z)
  | call_removeProvider (provider : Z)
  | call_pause
  | call_unpause
  | call_setCooldownSeconds (newCooldownSeconds : Z)
  | call_openNewBatch
  | call_closeCurrentBatch
  | call_depositTime (hours : Z)
  | call_withdrawTime (hours : Z)
  | call_requestBatchSummary (batchId_ requestId : Z)
  | call_myCallback (requestId : Z) (cleartexts proof : list byte).

Definition dispatch (msg : Msg) (c : Call) : Contract unit :=
  match c with
  | call_transferOwnership newOwner => transferOwnership msg newOwner
  | call_addProvider provider => addProvider msg provider
  | call_removeProvider provider => removeProvider msg provider
  | call_pause => pause msg
  | call_unpause => unpause msg
  | call_setCooldownSeconds n => setCooldownSeconds msg n
  | call_openNewBatch => openNewBatch msg
  | call_closeCurrentBatch => closeCurrentBatch msg
  | call_depositTime hours => depositTime msg hours
  | call_withdrawTime hours => withdrawTime msg hours
  | call_requestBatchSummary b r => requestBatchSummary msg b r
  | call_myCallback r cleartexts proof => myCallback r cleartexts proof
  end.

(** A transaction either commits its storage and events or, on revert,
    leaves the storage as it was and logs nothing. *)
Definition execute (s : State) (tx : Msg * Call) : State * list Event :=
  match dispatch (fst tx) (snd tx) s with
  | Ok (_, s', evs) => (s', evs)
  | Revert _ => (s, [])
  end.

Fixpoint run (s : State) (txs : list (Msg * Call)) : State * list Event :=
  match txs with
  | [] => (s, [])
  | tx :: rest =>
      let '(s1, ev1) := execute s tx in
      let '(s2, ev2) := run s1 rest in
      (s2, ev1 ++ ev2)
  end.

Definition deploy (msg : Msg) : Result (unit * State * list Event) :=
  constructor msg zeroState.

Inductive reachable : State -> Prop :=
  | reachable_deploy msg s evs :
      deploy msg = Ok (tt, s, evs) -> reachable s
  | reachable_call s msg c s' evs :
      reachable s -> dispatch msg c s = Ok (tt, s', evs) -> reachable s'.

End TimeBankFHE.

Arguments reachable {fhe} this s.

(** ** A transparent instance of the FHE interface

    A handle is the 32-bit value it stands for, a signature is accepted when
    the proof is not empty and the hash is a positional encoding of its
    arguments.  It is used to run the contract on concrete transactions.
    In it the encrypted zero is the zero handle, so the arrays that
    [requestBatchSummary] and [myCallback] hash are the same; with handles
    that tell an encrypted zero from the zero handle, as in [taggedFHE]
    below, they are not. *)

#[local] Instance transparentFHE : FHEVM := {|
  asEuint32 h := h;
  FHE_add a b := (a + b) mod 2 ^ 32;
  isInitialized h := negb (h =? 0);
  toBytes32 h := h;
  checkSignatures _ _ proof := match proof with [] => false | _ => true end;
  keccak256_encode cts addr := fold_left (fun acc c => acc * 2 ^ 256 + c) cts (1 + addr)
|}.

(** ** An instance with tagged handles

    A handle of an encrypted value is the value plus [2 ^ 32], so that only
    the zero handle is uninitialised; [FHE_add] reads an uninitialised
    operand as an encrypted zero.  Signatures and hash are as above. *)

Definition taggedFHE : FHEVM := {|
  asEuint32 h := 2 ^ 32 + h mod 2 ^ 32;
  FHE_add a b :=
    let plain h := if h =? 0 then 0 else h - 2 ^ 32 in
    2 ^ 32 + (plain a + plain b) mod 2 ^ 32;
  isInitialized h := negb (h =? 0);
  toBytes32 h := h;
  checkSignatures _ _ proof := match proof with [] => false | _ => true end;
  keccak256_encode cts addr := fold_left (fun acc c => acc * 2 ^ 256 + c) cts (1 + addr)
|}.

Module Scenario.

Definition this : Z := 7777.
Definition alice : Z := 1.     (* deployer and owner *)
Definition bob : Z := 2.       (* never made a provider *)

Definition at_ (who time : Z) : Msg := {| sender := who; timestamp := time |}.

(** Storage right after deployment by [alice] at time 1000. *)
Definition deployed : State :=
  match deploy (at_ alice 1000) with
  | Ok (_, s, _) => s
  | Revert _ => zeroState
  end.

(** [alice] closes batch 1. *)
Definition closed1 : State :=
  fst (run this deployed [(at_ alice 1010, call_closeCurrentBatch)]).

(** A summary of the closed batch 1 is requested; the oracle answers 0. *)
Definition requested : State :=
  fst (run this closed1 [(at_ alice 1100, call_requestBatchSummary 1 0)]).

Definition eight : list byte := [x00; x00; x00; x05; x00; x00; x00; x00].
Definition sig : list byte := [x01].


(** [alice] deposits 3 hours at time 2000 in the open batch 1. *)
Definition deposited : State :=
  fst (run this deployed [(at_ alice 2000, call_depositTime 3)]).

(** ... and then sets the cooldown to the largest [uint256]. *)
Definition longCooldown : State :=
  fst (run this deposited [(at_ alice 2010, call_setCooldownSeconds MAX_UINT256)]).

(** Another history: a deposit, batch 1 closed, batch 2 opened and closed. *)
Definition closed2 : State :=
  fst (run this deposited
         [(at_ alice 2100, call_closeCurrentBatch);
          (at_ alice 2200, call_openNewBatch);
          (at_ alice 2300, call_closeCurrentBatch)]).

(** The owner [alice] pauses the deployed contract. *)
Definition pausedState : State :=
  fst (run this deployed [(at_ alice 1020, call_pause)]).

(** [alice] hands the ownership to [bob]. *)
Definition handedOver : State :=
  fst (run this deployed [(at_ alice 1020, call_transferOwnership bob)]).

(** A provider [carol] who has not acted yet. *)
Definition carol : Z := 3.
Definition withCarol : State :=
  fst (run this deployed [(at_ alice 1020, call_addProvider carol)]).

(** With tagged handles: batch 1 is closed and its summary requested; the
    oracle answers 0. *)
Definition requestedT : State :=
  fst (run (fhe := taggedFHE) this deployed
         [(at_ alice 1010, call_closeCurrentBatch);
          (at_ alice 1100, call_requestBatchSummary 1 0)]).


(** A history of the contract run with tagged handles. *)
Definition taggedHistory : list (Msg * Call) :=
  [(at_ alice 2000, call_depositTime 3);
   (at_ alice 2100, call_closeCurrentBatch);
   (at_ alice 2200, call_requestBatchSummary 1 0);
   (at_ 99 2300, call_myCallback 0 eight sig)].

End Scenario.

(** ** Vocabulary of the properties *)

Section Vocabulary.

Context {fhe : FHEVM}.
Variable this : Z.

(** The commitment the callback recomputes. *)
Definition callbackHash : Z :=
  _hashCiphertexts this
    [toBytes32 (fst callbackTotals); toBytes32 (snd callbackTotals)].

(** The commitment a request stores. *)
Definition requestHash : Z :=
  _hashCiphertexts this
    [toBytes32 (fst requestTotals); toBytes32 (snd requestTotals)].

(** The checks that the modifiers [onlyProvider], [whenNotPaused] and
    [checkCooldown] make, in that order, all passing. *)
Definition passesGates (msg : Msg) (lastTimeMap : State -> gmap Z Z) (s : State) : Prop :=
  readBool (isProvider s) (sender msg) = true /\
  paused s = false /\
  readUint (lastTimeMap s) (sender msg) + cooldownSeconds s <= MAX_UINT256 /\
  readUint (lastTimeMap s) (sender msg) + cooldownSeconds s <= timestamp msg.

(** Modelled from the spec: the query [isOpen] of the batch manager, which
    the contract does not declare; it is written over the contract's storage
    as the spec words it, [batchId == currentBatchId && !closed(batchId)]. *)
Definition isOpen (s : State) (b : Z) : bool :=
  (b =? currentBatchId s) && negb (readBool (isBatchClosed s) b).

(** The two cooldown classes and the storage map of each. *)
Inductive CooldownClass : Type := Submission | Disclosure.

Definition lastTime (cl : CooldownClass) : State -> gmap Z Z :=
  match cl with
  | Submission => lastSubmissionTime
  | Disclosure => lastDecryptionRequestTime
  end.

Definition classOf (c : Call) : option CooldownClass :=
  match c with
  | call_depositTime _ | call_withdrawTime _ => Some Submission
  | call_requestBatchSummary _ _ => Some Disclosure
  | _ => None
  end.

(** The test a rate-limited function makes on the batch after its modifiers. *)
Definition batchTest (c : Call) (s : State) : bool :=
  match c with
  | call_depositTime _ | call_withdrawTime _ =>
      negb (readBool (isBatchClosed s) (currentBatchId s))
  | call_requestBatchSummary b _ => readBool (isBatchClosed s) b
  | _ => true
  end.



(** What the modifiers of a provider function decide before its body runs. *)
Definition gatesOutcome (msg : Msg) (lastTimeMap : State -> gmap Z Z) (s : State)
  : option Error :=
  let limit := readUint (lastTimeMap s) (sender msg) + cooldownSeconds s in
  if negb (readBool (isProvider s) (sender msg)) then Some NotProvider
  else if paused s then Some PausedError
  else if negb (limit <=? MAX_UINT256) then Some (Panic 17)
  else if timestamp msg <? limit then Some CooldownActive
  else None.

(** Only batches up to the current one are closed. *)
Definition closedBelowCurrent (s : State) : Prop :=
  forall b, readBool (isBatchClosed s) b = true -> b <= currentBatchId s.

(** A processed request holds the commitment the callback recomputes. *)
Definition processedMatches (s : State) : Prop :=
  forall r, processed (readContext (decryptionContexts s) r) = true ->
            stateHash (readContext (decryptionContexts s) r) = callbackHash.




(** The functions that carry the modifier [onlyOwner]. *)
Definition ownerOnly (c : Call) : bool :=
  match c with
  | call_transferOwnership _ | call_addProvider _ | call_removeProvider _
  | call_pause | call_unpause | call_setCooldownSeconds _
  | call_openNewBatch | call_closeCurrentBatch => true
  | _ => false
  end.

(** How a call ends: accepted, or reverted with an error. *)
Definition verdict {A : Type} (r : Result A) : option Error :=
  match r with
  | Ok _ => None
  | Revert e => Some e
  end.

(** The batch ids of the [BatchOpened] events of a log, in order. *)
Definition openedBatches (evs : list Event) : list Z :=
  omap (fun e => match e with BatchOpened b => Some b | _ => None end) evs.

Definition isCompletion (e : Event) : bool :=
  match e with
  | DecryptionCompleted _ _ _ _ => true
  | _ => false
  end.

End Vocabulary.

(** ** Reading after writing *)

Lemma readBool_insert (m : gmap Z bool) (k k' : Z) (v : bool) :
  readBool (<[k := v]> m) k' = if decide (k = k') then v else readBool m k'.
Proof. unfold readBool. rewrite lookup_insert. by case_decide. Qed.

Lemma readUint_insert (m : gmap Z Z) (k k' v : Z) :
  readUint (<[k := v]> m) k' = if decide (k = k') then v else readUint m k'.
Proof. unfold readUint. rewrite lookup_insert. by case_decide. Qed.

Lemma readContext_insert (m : gmap Z DecryptionContext) (k k' : Z) (v : DecryptionContext) :
  readContext (<[k := v]> m) k' = if decide (k = k') then v else readContext m k'.
Proof. unfold readContext. rewrite lookup_insert. by case_decide. Qed.

Lemma readContext_insert_eq (m : gmap Z DecryptionContext) (k : Z)
    (v : DecryptionContext) :
  readContext (<[k := v]> m) k = v.
Proof. rewrite readContext_insert. by case_decide. Qed.

Lemma readUint_insert_eq (m : gmap Z Z) (k v : Z) :
  readUint (<[k := v]> m) k = v.
Proof. rewrite readUint_insert. by case_decide. Qed.

(** Unfolds a call down to its tests on the storage. *)
Ltac unfold_call :=
  unfold execute, dispatch, deploy, constructor, transferOwnership, addProvider,
    removeProvider, pause, unpause, setCooldownSeconds, openNewBatch,
    closeCurrentBatch, depositTime, withdrawTime, requestBatchSummary,
    myCallback, onlyOwner, onlyProvider, whenNotPaused, checkCooldown,
    checked_add, _initIfNeeded, bind, ret, revert, emit, sload, sstore in *;
  simpl in *.

Ltac split_tests := repeat (case_match; simplify_eq/=; try done).


Ltac unfold_storage :=
  unfold set_owner, set_isProvider, set_paused, set_cooldownSeconds,
    set_lastSubmissionTime, set_lastDecryptionRequestTime, set_currentBatchId,
    set_isBatchClosed, set_decryptionContext in *;
  simpl in *.

Ltac bool_facts :=
  repeat match goal with
  | H : negb _ = true |- _ => apply negb_true_iff in H
  | H : negb _ = false |- _ => apply negb_false_iff in H
  | H : (_ =? _) = true |- _ => apply Z.eqb_eq in H
  | H : (_ =? _) = false |- _ => apply Z.eqb_neq in H
  | H : (_ <? _) = true |- _ => apply Z.ltb_lt in H
  | H : (_ <? _) = false |- _ => apply Z.ltb_ge in H
  | H : (_ <=? _) = true |- _ => apply Z.leb_le in H
  | H : (_ <=? _) = false |- _ => apply Z.leb_gt in H
  end.

Ltac solve_call :=
  unfold_call; split_tests; bool_facts; try congruence; try lia.

Section Properties.

Context {fhe : FHEVM}.
Variable this : Z.

(** *** Provider administration *)

Lemma addProvider_cases msg account s :
  addProvider msg account s =
    if negb (sender msg =? owner s) then Revert NotOwner
    else if readBool (isProvider s) account then Ok (tt, s, [])
    else Ok (tt, set_isProvider account true s, [ProviderAdded account]).
Proof. solve_call. Qed.

Lemma removeProvider_cases msg account s :
  removeProvider msg account s =
    if negb (sender msg =? owner s) then Revert NotOwner
    else if readBool (isProvider s) account
         then Ok (tt, set_isProvider account false s, [ProviderRemoved account])
    else Ok (tt, s, []).
Proof. solve_call. Qed.

Lemma execute_addProvider msg account s :
  execute this s (msg, call_addProvider account) =
    if (sender msg =? owner s) && negb (readBool (isProvider s) account)
    then (set_isProvider account true s, [ProviderAdded account])
    else (s, []).
Proof.
  unfold execute, dispatch; simpl. rewrite addProvider_cases.
  destruct (sender msg =? owner s), (readBool (isProvider s) account); reflexivity.
Qed.

Lemma execute_removeProvider msg account s :
  execute this s (msg, call_removeProvider account) =
    if (sender msg =? owner s) && readBool (isProvider s) account
    then (set_isProvider account false s, [ProviderRemoved account])
    else (s, []).
Proof.
  unfold execute, dispatch; simpl. rewrite removeProvider_cases.
  destruct (sender msg =? owner s), (readBool (isProvider s) account); reflexivity.
Qed.

Lemma readBool_insert_eq (m : gmap Z bool) (k : Z) (v : bool) :
  readBool (<[k := v]> m) k = v.
Proof. rewrite readBool_insert. by case_decide. Qed.

(** C10. [addProvider] and [removeProvider] are idempotent.  Whoever calls:
    when the call leaves the membership of [account] as it was, it leaves the
    whole storage as it was and emits nothing; when it does not, the
    membership is flipped, nothing else is written and exactly one
    [ProviderAdded] (resp. [ProviderRemoved]) event is emitted; and a second
    identical call right after the first changes nothing and emits nothing.
    A call by the owner changes the membership exactly when [account] is not
    yet (resp. is) a provider. *)
Theorem provider_admin_idempotent (msg : Msg) (account : Z) (s : State) :
  let member (st : State) := readBool (isProvider st) account in
  (forall s1 ev1, execute this s (msg, call_addProvider account) = (s1, ev1) ->
   (member s1 = member s -> s1 = s /\ ev1 = []) /\
   (member s1 <> member s ->
      member s1 = negb (member s) /\
      s1 = set_isProvider account true s /\ ev1 = [ProviderAdded account]) /\
   (sender msg = owner s -> member s1 = true /\
      (member s1 = member s <-> member s = true)) /\
   execute this s1 (msg, call_addProvider account) = (s1, []))
  /\
  (forall s1 ev1, execute this s (msg, call_removeProvider account) = (s1, ev1) ->
   (member s1 = member s -> s1 = s /\ ev1 = []) /\
   (member s1 <> member s ->
      member s1 = negb (member s) /\
      s1 = set_isProvider account false s /\ ev1 = [ProviderRemoved account]) /\
   (sender msg = owner s -> member s1 = false /\
      (member s1 = member s <-> member s = false)) /\
   execute this s1 (msg, call_removeProvider account) = (s1, [])).
Proof.
  cbv beta zeta. split; intros s1 ev1.
  - rewrite execute_addProvider.
    destruct (sender msg =? owner s) eqn:Ho;
      destruct (readBool (isProvider s) account) eqn:Hp; simpl;
      intros [= <- <-]; simpl; rewrite ?readBool_insert_eq, ?Hp.
    + repeat split; try done.
      rewrite execute_addProvider, Ho, Hp. reflexivity.
    + repeat split; try done.
      rewrite execute_addProvider. simpl.
      rewrite readBool_insert_eq, ?andb_false_r. reflexivity.
    + apply Z.eqb_neq in Ho. repeat split; try done.
      rewrite execute_addProvider. apply Z.eqb_neq in Ho. rewrite Ho. reflexivity.
    + apply Z.eqb_neq in Ho. repeat split; try done.
      rewrite execute_addProvider. apply Z.eqb_neq in Ho. rewrite Ho. reflexivity.
  - rewrite execute_removeProvider.
    destruct (sender msg =? owner s) eqn:Ho;
      destruct (readBool (isProvider s) account) eqn:Hp; simpl;
      intros [= <- <-]; simpl; rewrite ?readBool_insert_eq, ?Hp.
    + repeat split; try done.
      rewrite execute_removeProvider. simpl.
      rewrite readBool_insert_eq, ?andb_false_r. reflexivity.
    + repeat split; try done.
      rewrite execute_removeProvider, Ho, Hp. reflexivity.
    + apply Z.eqb_neq in Ho. repeat split; try done.
      rewrite execute_removeProvider. apply Z.eqb_neq in Ho. rewrite Ho. reflexivity.
    + apply Z.eqb_neq in Ho. repeat split; try done.
      rewrite execute_removeProvider. apply Z.eqb_neq in Ho. rewrite Ho. reflexivity.
Qed.

(** *** The three rate-limited functions, test by test *)

Lemma gatesOutcome_passes msg lastTimeMap s :
  gatesOutcome msg lastTimeMap s = None <-> passesGates msg lastTimeMap s.
Proof.
  unfold gatesOutcome, passesGates. split.
  - intros H. split_tests. bool_facts. by repeat split.
  - intros (Hp & Hq & Hmax & Hnow). rewrite Hp, Hq. simpl.
    apply Z.leb_le in Hmax. rewrite Hmax. simpl.
    apply Z.ltb_ge in Hnow. by rewrite Hnow.
Qed.

Lemma depositTime_cases msg hours s :
  depositTime msg hours s =
    match gatesOutcome msg lastSubmissionTime s with
    | Some e => Revert e
    | None =>
        if readBool (isBatchClosed s) (currentBatchId s) then Revert BatchClosedError
        else Ok (tt, set_lastSubmissionTime (sender msg) (timestamp msg) s,
                 [TimeDeposited (sender msg) (currentBatchId s) (asEuint32 hours)])
    end.
Proof. unfold gatesOutcome. solve_call. Qed.

Lemma withdrawTime_cases msg hours s :
  withdrawTime msg hours s =
    match gatesOutcome msg lastSubmissionTime s with
    | Some e => Revert e
    | None =>
        if readBool (isBatchClosed s) (currentBatchId s) then Revert BatchClosedError
        else Ok (tt, set_lastSubmissionTime (sender msg) (timestamp msg) s,
                 [TimeWithdrawn (sender msg) (currentBatchId s) (asEuint32 hours)])
    end.
Proof. unfold gatesOutcome. solve_call. Qed.

Lemma requestBatchSummary_cases msg b r s :
  requestBatchSummary this msg b r s =
    match gatesOutcome msg lastDecryptionRequestTime s with
    | Some e => Revert e
    | None =>
        if readBool (isBatchClosed s) b then
          Ok (tt,
              set_lastDecryptionRequestTime (sender msg) (timestamp msg)
                (set_decryptionContext r
                   {| batchId := b; stateHash := requestHash this; processed := false |} s),
              [DecryptionRequested r b])
        else Revert (ErrorString "Batch not closed")
    end.
Proof.
  unfold gatesOutcome, requestHash. unfold_call.
  destruct requestTotals as [td tw]. split_tests; bool_facts; try congruence; try lia.
Qed.

Lemma myCallback_cases r cleartexts proof s :
  myCallback this r cleartexts proof s =
    let ctx := readContext (decryptionContexts s) r in
    if processed ctx then Revert ReplayError
    else if negb (callbackHash this =? stateHash ctx) then Revert StateMismatchError
    else if negb (checkSignatures r cleartexts proof) then Revert InvalidProof
    else if negb (Z.of_nat (length cleartexts) =? 8) then Revert InvalidDecryption
    else Ok (tt,
             set_decryptionContext r
               {| batchId := batchId ctx; stateHash := stateHash ctx; processed := true |} s,
             [DecryptionCompleted r (batchId ctx)
                (be_uint (take 4 cleartexts)) (be_uint (take 4 (drop 4 cleartexts)))]).
Proof.
  unfold callbackHash. unfold_call.
  destruct callbackTotals as [td tw]. split_tests; bool_facts; try congruence; try lia.
Qed.

Lemma execute_revert msg c s e :
  dispatch this msg c s = Revert e -> execute this s (msg, c) = (s, []).
Proof. intros H. unfold execute. simpl. by rewrite H. Qed.

(** *** Accepted deposits and withdrawals *)

(** C1, as the contract has it.  A [depositTime] (resp. [withdrawTime]) call
    is accepted exactly when the caller is a provider, the system is not
    paused, the cooldown has passed and the current batch is not closed.  It
    then turns the plaintext amount into the handle [asEuint32 hours], emits
    one [TimeDeposited] (resp. [TimeWithdrawn]) event with the caller, the
    current batch id and that handle, and writes one storage slot, the
    caller's last submission time: no aggregate of the batch is written. *)
Theorem accepted_submission_effect (msg : Msg) (hours : Z) (s s' : State)
    (evs : list Event) :
  (depositTime msg hours s = Ok (tt, s', evs) <->
     passesGates msg lastSubmissionTime s /\
     readBool (isBatchClosed s) (currentBatchId s) = false /\
     s' = set_lastSubmissionTime (sender msg) (timestamp msg) s /\
     evs = [TimeDeposited (sender msg) (currentBatchId s) (asEuint32 hours)])
  /\
  (withdrawTime msg hours s = Ok (tt, s', evs) <->
     passesGates msg lastSubmissionTime s /\
     readBool (isBatchClosed s) (currentBatchId s) = false /\
     s' = set_lastSubmissionTime (sender msg) (timestamp msg) s /\
     evs = [TimeWithdrawn (sender msg) (currentBatchId s) (asEuint32 hours)]).
Proof.
  rewrite depositTime_cases, withdrawTime_cases.
  rewrite <- (gatesOutcome_passes msg lastSubmissionTime s).
  destruct (gatesOutcome msg lastSubmissionTime s) as [e|];
    destruct (readBool (isBatchClosed s) (currentBatchId s)).
  all: split; (split; [ intros [= <- <-] || (intros [=]) | intros (H1 & H2 & -> & ->) ]);
    try done.
Qed.

(** *** Closed batches *)

Lemma isBatchClosed_monotone msg c s s' evs b :
  dispatch this msg c s = Ok (tt, s', evs) ->
  readBool (isBatchClosed s) b = true -> readBool (isBatchClosed s') b = true.
Proof.
  intros H Hb. destruct c; simpl in H.
  11: { rewrite requestBatchSummary_cases in H. split_tests. }
  11: { rewrite myCallback_cases in H. simpl in H. split_tests. }
  all: unfold_call; split_tests; unfold_storage; try done.
  rewrite readBool_insert. by case_decide.
Qed.


(** *** Requesting a summary *)


(** *** Decoding the cleartexts *)




(** *** Invariants of the reachable storage *)

Lemma closedBelowCurrent_call msg c s s' evs :
  dispatch this msg c s = Ok (tt, s', evs) ->
  closedBelowCurrent s -> closedBelowCurrent s'.
Proof.
  unfold closedBelowCurrent. intros H Inv b. destruct c; simpl in H.
  11: { rewrite requestBatchSummary_cases in H. split_tests. apply Inv. }
  11: { rewrite myCallback_cases in H. simpl in H. split_tests. apply Inv. }
  all: unfold_call; split_tests; unfold_storage; try apply Inv.
  - intros Hb. apply Inv in Hb. bool_facts. lia.
  - rewrite readBool_insert. case_decide; [lia | apply Inv].
Qed.

Lemma processedMatches_call msg c s s' evs :
  dispatch this msg c s = Ok (tt, s', evs) ->
  processedMatches this s -> processedMatches this s'.
Proof.
  unfold processedMatches. intros H Inv r. destruct c; simpl in H.
  11: { rewrite requestBatchSummary_cases in H. split_tests. unfold_storage.
        rewrite readContext_insert. case_decide; [done | apply Inv]. }
  11: { rewrite myCallback_cases in H. simpl in H. split_tests. unfold_storage.
        rewrite readContext_insert. case_decide; [| apply Inv].
        simpl. bool_facts. congruence. }
  all: unfold_call; split_tests; unfold_storage; apply Inv.
Qed.

Lemma reachable_invariants s :
  reachable this s -> closedBelowCurrent s /\ processedMatches this s.
Proof.
  induction 1 as [msg s evs Hd | s msg c s' evs _ [IH1 IH2] Hc].
  - unfold_call. simplify_eq. unfold_storage. split.
    + intros b. unfold readBool. simpl. by rewrite lookup_empty.
    + intros r. unfold readContext. simpl. by rewrite lookup_empty.
  - split.
    + eapply closedBelowCurrent_call; eauto.
    + eapply processedMatches_call; eauto.
Qed.

Lemma reachable_run s txs : reachable this s -> reachable this (fst (run this s txs)).
Proof.
  revert s. induction txs as [|[msg c] txs IH]; intros s Hs; simpl; [done|].
  unfold execute. simpl.
  destruct (dispatch this msg c s) as [[[[] s1] ev1]|e] eqn:Hc.
  - specialize (IH s1 (reachable_call this s msg c s1 ev1 Hs Hc)).
    by destruct (run this s1 txs).
  - specialize (IH s Hs). by destruct (run this s txs).
Qed.

(** *** Open batches *)

Lemma openNewBatch_cases msg s :
  openNewBatch msg s =
    if negb (sender msg =? owner s) then Revert NotOwner
    else if currentBatchId s + 1 <=? MAX_UINT256
         then Ok (tt, set_currentBatchId (currentBatchId s + 1) s,
                  [BatchOpened (currentBatchId s + 1)])
    else Revert (Panic 17).
Proof. solve_call. Qed.

Lemma closeCurrentBatch_cases msg s :
  closeCurrentBatch msg s =
    if negb (sender msg =? owner s) then Revert NotOwner
    else Ok (tt, set_isBatchClosed (currentBatchId s) true s,
             [BatchClosed (currentBatchId s)]).
Proof. solve_call. Qed.

(** C2, as the contract has it.  In every reachable storage at most one
    batch is open, and it can only be the current one; a batch is open
    exactly when the current batch is not closed.  [openNewBatch] leaves
    exactly the new current batch open, and [closeCurrentBatch] leaves no
    batch open. *)
Theorem at_most_one_open_batch (s : State) :
  reachable this s ->
  (forall b, isOpen s b = true -> b = currentBatchId s) /\
  ((exists b, isOpen s b = true) <->
     readBool (isBatchClosed s) (currentBatchId s) = false) /\
  (forall msg s' evs,
     openNewBatch msg s = Ok (tt, s', evs) ->
     currentBatchId s' = currentBatchId s + 1 /\
     forall b, isOpen s' b = true <-> b = currentBatchId s') /\
  (forall msg s' evs,
     closeCurrentBatch msg s = Ok (tt, s', evs) ->
     forall b, isOpen s' b = false).
Proof.
  intros Hr. apply reachable_invariants in Hr as [Hcl _]. unfold isOpen.
  split_and!.
  - intros b H. apply andb_true_iff in H as [H _]. by apply Z.eqb_eq in H.
  - split.
    + intros [b H]. apply andb_true_iff in H as [H1 H2].
      apply Z.eqb_eq in H1. subst b. by apply negb_true_iff in H2.
    + intros H. exists (currentBatchId s). by rewrite Z.eqb_refl, H.
  - intros msg s' evs H. rewrite openNewBatch_cases in H.
    split_tests. unfold_storage.
    split; [done|]. intros b. split.
    + intros Hb. apply andb_true_iff in Hb as [Hb _]. by apply Z.eqb_eq in Hb.
    + intros ->. rewrite Z.eqb_refl. simpl. apply negb_true_iff.
      destruct (readBool (isBatchClosed s) (currentBatchId s + 1)) eqn:Hb; [|done].
      apply Hcl in Hb. lia.
  - intros msg s' evs H b. rewrite closeCurrentBatch_cases in H.
    split_tests. unfold_storage.
    destruct (b =? currentBatchId s) eqn:Hb; [|done]. apply Z.eqb_eq in Hb.
    subst b. by rewrite readBool_insert_eq.
Qed.

(** *** The commitment *)

Lemma requestBatchSummary_stored msg b r s s' evs :
  requestBatchSummary this msg b r s = Ok (tt, s', evs) ->
  readContext (decryptionContexts s') r
  = {| batchId := b; stateHash := requestHash this; processed := false |}.
Proof.
  rewrite requestBatchSummary_cases. intros H. split_tests. unfold_storage.
  rewrite readContext_insert. by case_decide.
Qed.

(** C4.  [requestBatchSummary], called by a provider with the system not
    paused and the cooldown passed on a closed batch, is accepted and stores
    under the oracle's id the batch id, the flag unset and, as commitment,
    the hash of the two-element array [totalDeposits, totalWithdrawals], in
    that order, together with the contract's address; no accepted request
    stores anything else.  [myCallback] rebuilds the array in the same order
    and hashes it the same way; in every reachable storage a callback whose
    recomputed hash differs from the stored one reverts with
    [StateMismatchError] and changes nothing, whatever the cleartexts and
    the proof are, so also when the proof passes [checkSignatures].  When
    the zero handle is not initialised, the request hashes the sum of two
    encrypted zeros and an encrypted zero, and the callback the sum of the
    zero handle with an encrypted zero and the zero handle. *)
Theorem commitment_checked_before_proof :
  (forall msg b r s,
     passesGates msg lastDecryptionRequestTime s ->
     readBool (isBatchClosed s) b = true ->
     exists s',
       requestBatchSummary this msg b r s = Ok (tt, s', [DecryptionRequested r b]) /\
       readContext (decryptionContexts s') r
       = {| batchId := b;
            stateHash :=
              keccak256_encode
                [toBytes32 (fst requestTotals); toBytes32 (snd requestTotals)] this;
            processed := false |})
  /\
  (forall msg b r s s' evs,
     requestBatchSummary this msg b r s = Ok (tt, s', evs) ->
     stateHash (readContext (decryptionContexts s') r)
     = keccak256_encode
         [toBytes32 (fst requestTotals); toBytes32 (snd requestTotals)] this)
  /\
  callbackHash this
  = keccak256_encode
      [toBytes32 (fst callbackTotals); toBytes32 (snd callbackTotals)] this
  /\
  (forall msg s r cleartexts proof,
     reachable this s ->
     callbackHash this <> stateHash (readContext (decryptionContexts s) r) ->
     myCallback this r cleartexts proof s = Revert StateMismatchError /\
     execute this s (msg, call_myCallback r cleartexts proof) = (s, []))
  /\
  (forall s r cleartexts proof,
     processed (readContext (decryptionContexts s) r) = false ->
     callbackHash this <> stateHash (readContext (decryptionContexts s) r) ->
     checkSignatures r cleartexts proof = true ->
     myCallback this r cleartexts proof s = Revert StateMismatchError)
  /\
  (isInitialized euint32_default = false ->
     requestTotals = (FHE_add (asEuint32 0) (asEuint32 0), asEuint32 0) /\
     callbackTotals = (FHE_add euint32_default (asEuint32 0), euint32_default)).
Proof.
  split_and!; [| | | | | by intros Hi; unfold requestTotals, callbackTotals; rewrite Hi].
  - intros msg b r s Hg Hb. apply gatesOutcome_passes in Hg.
    eexists. rewrite requestBatchSummary_cases, Hg, Hb. split; [reflexivity|].
    unfold_storage. by rewrite readContext_insert_eq.
  - intros msg b r s s' evs H.
    by rewrite (requestBatchSummary_stored msg b r s s' evs H).
  - reflexivity.
  - intros msg s r cleartexts proof Hr Hne.
    apply reachable_invariants in Hr as [_ Hp].
    assert (H : myCallback this r cleartexts proof s = Revert StateMismatchError).
    { rewrite myCallback_cases. cbv zeta.
      destruct (processed (readContext (decryptionContexts s) r)) eqn:Hpr.
      - apply Hp in Hpr. congruence.
      - apply Z.eqb_neq in Hne. by rewrite Hne. }
    split; [done|].
    by apply (execute_revert msg (call_myCallback r cleartexts proof) s
                StateMismatchError).
  - intros s r cleartexts proof Hpr Hne _.
    rewrite myCallback_cases. cbv zeta. rewrite Hpr.
    apply Z.eqb_neq in Hne. by rewrite Hne.
Qed.

(** C5.  Any two accepted [requestBatchSummary] calls, in whatever storage,
    by whatever caller, on whatever batch, store the same commitment: the
    hash of the array built from the zero-initialised locals with the
    contract's address.  Neither the batch id nor anything in storage enters
    it. *)
Theorem commitment_is_constant (msg1 msg2 : Msg) (b1 b2 r1 r2 : Z)
    (s1 s2 s1' s2' : State) (ev1 ev2 : list Event) :
  requestBatchSummary this msg1 b1 r1 s1 = Ok (tt, s1', ev1) ->
  requestBatchSummary this msg2 b2 r2 s2 = Ok (tt, s2', ev2) ->
  stateHash (readContext (decryptionContexts s1') r1)
  = stateHash (readContext (decryptionContexts s2') r2) /\
  stateHash (readContext (decryptionContexts s1') r1) = requestHash this /\
  (isInitialized euint32_default = false ->
   requestHash this
   = keccak256_encode
       [toBytes32 (FHE_add (asEuint32 0) (asEuint32 0)); toBytes32 (asEuint32 0)]
       this).
Proof.
  intros H1 H2.
  rewrite (requestBatchSummary_stored _ _ _ _ _ _ H1).
  rewrite (requestBatchSummary_stored _ _ _ _ _ _ H2). simpl.
  split_and!; try done.
  intros Hi. unfold requestHash, requestTotals, _hashCiphertexts.
  by rewrite Hi.
Qed.

(** *** Replay protection *)






(** *** The rate limiter *)

Lemma gatesOutcome_early msg lastTimeMap s :
  readBool (isProvider s) (sender msg) = true -> paused s = false ->
  readUint (lastTimeMap s) (sender msg) + cooldownSeconds s <= MAX_UINT256 ->
  timestamp msg < readUint (lastTimeMap s) (sender msg) + cooldownSeconds s ->
  gatesOutcome msg lastTimeMap s = Some CooldownActive.
Proof.
  intros Hp Hq Hmax Hnow. unfold gatesOutcome. rewrite Hp, Hq. simpl.
  apply Z.leb_le in Hmax. rewrite Hmax. simpl.
  apply Z.ltb_lt in Hnow. by rewrite Hnow.
Qed.

(** A rate-limited call, as its modifiers and its batch test decide it. *)
Lemma rateLimited_cases c cl msg s :
  classOf c = Some cl ->
  match gatesOutcome msg (lastTime cl) s with
  | Some e => dispatch this msg c s = Revert e
  | None =>
      if batchTest c s then
        exists s' evs,
          dispatch this msg c s = Ok (tt, s', evs) /\
          readUint (lastTime cl s') (sender msg) = timestamp msg /\
          isProvider s' = isProvider s /\ paused s' = paused s /\
          cooldownSeconds s' = cooldownSeconds s /\
          currentBatchId s' = currentBatchId s /\
          isBatchClosed s' = isBatchClosed s
      else
        exists e, dispatch this msg c s = Revert e /\ e <> CooldownActive
  end.
Proof.
  intros Hcl. destruct c; simplify_eq/=.
  - rewrite depositTime_cases. destruct gatesOutcome; [done|].
    destruct (readBool (isBatchClosed s) (currentBatchId s)); simpl; [by eauto|].
    eexists _, _. split; [done|]. unfold_storage. by rewrite readUint_insert; case_decide.
  - rewrite withdrawTime_cases. destruct gatesOutcome; [done|].
    destruct (readBool (isBatchClosed s) (currentBatchId s)); simpl; [by eauto|].
    eexists _, _. split; [done|]. unfold_storage. by rewrite readUint_insert; case_decide.
  - rewrite requestBatchSummary_cases. destruct gatesOutcome; [done|].
    destruct (readBool (isBatchClosed s) batchId_); simpl; [|by eauto].
    eexists _, _. split; [done|]. unfold_storage. by rewrite readUint_insert; case_decide.
Qed.

(** C7, as the contract has it.  For a provider [msg.sender], the system not
    paused, a cooldown class and [limit] the sum of the account's last
    recorded time in the class and [cooldownSeconds], when that sum fits in
    [uint256]: an action at a time before [limit] reverts with
    [CooldownActive] and records nothing; an action at [limit] or later
    passes the limiter, and is accepted exactly when the batch test of its
    body passes; an accepted action records its time as the account's last
    time in the class; after it, with [cooldownSeconds] unchanged, a second
    action of the class by the same account reverts with [CooldownActive]
    when made less than [cooldownSeconds] later, and is accepted when made
    at least [cooldownSeconds] later and its batch test passes, which it does
    for a repetition of the first action. *)
Theorem cooldown_contract (cl : CooldownClass) (c : Call) (msg : Msg) (s : State) :
  classOf c = Some cl ->
  let limit := readUint (lastTime cl s) (sender msg) + cooldownSeconds s in
  (readBool (isProvider s) (sender msg) = true -> paused s = false ->
   limit <= MAX_UINT256 -> timestamp msg < limit ->
     dispatch this msg c s = Revert CooldownActive /\
     execute this s (msg, c) = (s, []))
  /\
  (passesGates msg (lastTime cl) s ->
     (batchTest c s = true ->
        exists s' evs, dispatch this msg c s = Ok (tt, s', evs)) /\
     (batchTest c s = false ->
        exists e, dispatch this msg c s = Revert e /\ e <> CooldownActive))
  /\
  (forall s' evs,
     dispatch this msg c s = Ok (tt, s', evs) ->
     passesGates msg (lastTime cl) s /\
     readUint (lastTime cl s') (sender msg) = timestamp msg /\
     batchTest c s' = true /\
     forall c2 msg2,
       classOf c2 = Some cl -> sender msg2 = sender msg ->
       timestamp msg + cooldownSeconds s <= MAX_UINT256 ->
       (timestamp msg2 < timestamp msg + cooldownSeconds s ->
          dispatch this msg2 c2 s' = Revert CooldownActive) /\
       (timestamp msg + cooldownSeconds s <= timestamp msg2 ->
        batchTest c2 s' = true ->
          exists s'' evs', dispatch this msg2 c2 s' = Ok (tt, s'', evs'))).
Proof.
  intros Hcl limit. subst limit. split_and!.
  - intros Hp Hq Hmax Hnow.
    pose proof (rateLimited_cases c cl msg s Hcl) as H.
    rewrite (gatesOutcome_early msg (lastTime cl) s Hp Hq Hmax Hnow) in H.
    split; [done|]. by apply (execute_revert msg c s CooldownActive).
  - intros Hg. apply gatesOutcome_passes in Hg.
    pose proof (rateLimited_cases c cl msg s Hcl) as H. rewrite Hg in H.
    split; intros Hb; rewrite Hb in H.
    + destruct H as (s' & evs & H & _). eauto.
    + done.
  - intros s' evs Hok.
    pose proof (rateLimited_cases c cl msg s Hcl) as H.
    destruct (gatesOutcome msg (lastTime cl) s) eqn:Hg; [congruence|].
    apply gatesOutcome_passes in Hg.
    destruct (batchTest c s) eqn:Hb; [|destruct H as (e & H & _); congruence].
    destruct H as (s1 & ev1 & H & Hlast & Hprov & Hpau & Hcd & Hcur & Hclo).
    assert (s1 = s') by congruence. subst s1.
    assert (Hb' : forall c', classOf c' = Some cl -> batchTest c' s' = batchTest c' s).
    { intros c' Hc'. destruct c'; simplify_eq/=; by rewrite ?Hclo, ?Hcur. }
    split_and!; try done.
    { by rewrite Hb'. }
    intros c2 msg2 Hcl2 Hsame Hmax.
    destruct Hg as (Hp & Hq & _ & _).
    pose proof (rateLimited_cases c2 cl msg2 s' Hcl2) as H2.
    split.
    + intros Hearly.
      rewrite (gatesOutcome_early msg2 (lastTime cl) s') in H2; [done| | | |];
        rewrite ?Hsame, ?Hprov, ?Hpau, ?Hlast, ?Hcd; done.
    + intros Hlate Hb2.
      assert (Hg2 : gatesOutcome msg2 (lastTime cl) s' = None).
      { apply gatesOutcome_passes. unfold passesGates.
        rewrite Hsame, Hprov, Hpau, Hlast, Hcd. by split_and!. }
      rewrite Hg2, Hb2 in H2. destruct H2 as (s'' & evs' & H2 & _). eauto.
Qed.

End Properties.

(** ** The rest of the contract *)

Section Coverage.

Context {fhe : FHEVM}.
Variable this : Z.

(** *** Administration *)

Lemma transferOwnership_cases msg newOwner s :
  transferOwnership msg newOwner s =
    if negb (sender msg =? owner s) then Revert NotOwner
    else Ok (tt, set_owner newOwner s, [OwnershipTransferred (owner s) newOwner]).
Proof. solve_call. Qed.

Lemma pause_cases msg s :
  pause msg s =
    if negb (sender msg =? owner s) then Revert NotOwner
    else if paused s then Revert PausedError
    else Ok (tt, set_paused true s, [Paused (sender msg)]).
Proof. solve_call. Qed.

Lemma unpause_cases msg s :
  unpause msg s =
    if negb (sender msg =? owner s) then Revert NotOwner
    else Ok (tt, set_paused false s, [Unpaused (sender msg)]).
Proof. solve_call. Qed.

Lemma setCooldownSeconds_cases msg n s :
  setCooldownSeconds msg n s =
    if negb (sender msg =? owner s) then Revert NotOwner
    else Ok (tt, set_cooldownSeconds n s, [CooldownSecondsSet (cooldownSeconds s) n]).
Proof. solve_call. Qed.

Lemma ownerOnly_stranger msg c s :
  ownerOnly c = true -> sender msg <> owner s ->
  dispatch this msg c s = Revert NotOwner.
Proof.
  intros Hc Hne. apply Z.eqb_neq in Hne.
  destruct c; simplify_eq/=;
    rewrite ?transferOwnership_cases, ?addProvider_cases, ?removeProvider_cases,
      ?pause_cases, ?unpause_cases, ?setCooldownSeconds_cases,
      ?openNewBatch_cases, ?closeCurrentBatch_cases, Hne; done.
Qed.

Lemma ownerOnly_accepted msg c s s' evs :
  ownerOnly c = true -> dispatch this msg c s = Ok (tt, s', evs) ->
  sender msg = owner s.
Proof.
  intros Hc Hok. destruct (decide (sender msg = owner s)) as [|Hne]; [done|].
  rewrite (ownerOnly_stranger msg c s Hc Hne) in Hok. done.
Qed.

(** X1.  The eight functions marked [onlyOwner] revert with [NotOwner] for
    every caller that is not the owner, whatever their arguments and the
    storage, and then nothing is written or emitted; an accepted call of one
    of them was sent by the owner. *)
Theorem owner_only_functions (msg : Msg) (c : Call) (s : State) :
  ownerOnly c = true ->
  (sender msg <> owner s ->
     dispatch this msg c s = Revert NotOwner /\
     execute this s (msg, c) = (s, []))
  /\
  (forall s' evs, dispatch this msg c s = Ok (tt, s', evs) -> sender msg = owner s).
Proof.
  intros Hc. split.
  - intros Hne. pose proof (ownerOnly_stranger msg c s Hc Hne) as H.
    split; [done|]. unfold execute. simpl. by rewrite H.
  - intros s' evs. by apply ownerOnly_accepted.
Qed.

(** X2.  An accepted [transferOwnership] was sent by the owner, writes the
    owner slot only and emits [OwnershipTransferred] with the old and the new
    owner.  From then on every [onlyOwner] function reverts with [NotOwner]
    for everybody but the new owner, the previous owner included.  The
    provider set is as before: a new owner who is not a provider gets
    [NotProvider] from [depositTime], [withdrawTime] and
    [requestBatchSummary]. *)
Theorem ownership_handover (msg : Msg) (newOwner : Z) (s s' : State)
    (evs : list Event) :
  transferOwnership msg newOwner s = Ok (tt, s', evs) ->
  sender msg = owner s /\
  s' = set_owner newOwner s /\
  evs = [OwnershipTransferred (owner s) newOwner] /\
  (forall msg' c,
     ownerOnly c = true -> sender msg' <> newOwner ->
     dispatch this msg' c s' = Revert NotOwner) /\
  (forall msg' c cl,
     classOf c = Some cl -> sender msg' = newOwner ->
     readBool (isProvider s) newOwner = false ->
     dispatch this msg' c s' = Revert NotProvider).
Proof.
  rewrite transferOwnership_cases.
  destruct (negb (sender msg =? owner s)) eqn:Ho; [done|].
  intros [= <- <-]. bool_facts. split_and!; try done.
  - intros msg' c Hc Hne. by apply ownerOnly_stranger.
  - intros msg' c cl Hcl Hs Hp.
    pose proof (rateLimited_cases this c cl msg' (set_owner newOwner s) Hcl) as H.
    unfold gatesOutcome in H. unfold_storage. rewrite Hs, Hp in H. done.
Qed.

(** *** Pausing *)

Lemma set_paused_round_trip s :
  paused s = false -> set_paused false (set_paused true s) = s.
Proof. destruct s. unfold set_paused. simpl. by intros ->. Qed.

(** X3.  For the owner: [pause] on a paused system reverts with
    [PausedError]; on a running system it sets the flag and emits [Paused];
    [unpause] is accepted in either state and emits [Unpaused]; pausing a
    running system and unpausing it gives back the very same storage. *)
Theorem pause_unpause_round_trip (msg : Msg) (s : State) :
  sender msg = owner s ->
  (paused s = true -> pause msg s = Revert PausedError) /\
  (paused s = false ->
     pause msg s = Ok (tt, set_paused true s, [Paused (sender msg)]) /\
     run this s [(msg, call_pause); (msg, call_unpause)]
     = (s, [Paused (sender msg); Unpaused (sender msg)])) /\
  unpause msg s = Ok (tt, set_paused false s, [Unpaused (sender msg)]).
Proof.
  intros Ho. rewrite pause_cases, unpause_cases, Ho, Z.eqb_refl. simpl.
  split_and!; try done.
  - by intros ->.
  - intros Hp. rewrite Hp. split; [done|].
    unfold execute. simpl. rewrite pause_cases, Ho, Z.eqb_refl, Hp. simpl.
    rewrite unpause_cases. unfold_storage. rewrite Ho, Z.eqb_refl. simpl.
    f_equal. destruct s. simpl in *. by subst.
Qed.

(** X4.  While the system is paused, [depositTime], [withdrawTime] and
    [requestBatchSummary] revert for every caller and leave the storage as
    it is: with [PausedError] for a provider, with [NotProvider] for anybody
    else.  The cooldown and the batch are not looked at. *)
Theorem paused_blocks_provider_functions (msg : Msg) (c : Call)
    (cl : CooldownClass) (s : State) :
  classOf c = Some cl -> paused s = true ->
  execute this s (msg, c) = (s, []) /\
  (readBool (isProvider s) (sender msg) = true ->
     dispatch this msg c s = Revert PausedError) /\
  (readBool (isProvider s) (sender msg) = false ->
     dispatch this msg c s = Revert NotProvider).
Proof.
  intros Hcl Hp.
  pose proof (rateLimited_cases this c cl msg s Hcl) as H.
  unfold gatesOutcome in H. rewrite Hp in H.
  destruct (readBool (isProvider s) (sender msg)); simpl in H.
  - split_and!; try done. unfold execute. simpl. by rewrite H.
  - split_and!; try done. unfold execute. simpl. by rewrite H.
Qed.

(** X5.  [myCallback] has no modifier: what it does with a request id
    depends on the stored context of that id and on its arguments only.  In
    two storages that agree on that context, whatever their owner, provider
    set, pause flag, cooldowns and batches, it ends the same way, with the
    same error or with the same event and the same new context. *)
Theorem callback_is_ungated (r : Z) (cleartexts proof : list byte)
    (s1 s2 : State) :
  readContext (decryptionContexts s1) r = readContext (decryptionContexts s2) r ->
  verdict (myCallback this r cleartexts proof s1)
  = verdict (myCallback this r cleartexts proof s2) /\
  (forall s1' ev1,
     myCallback this r cleartexts proof s1 = Ok (tt, s1', ev1) ->
     exists s2',
       myCallback this r cleartexts proof s2 = Ok (tt, s2', ev1) /\
       readContext (decryptionContexts s1') r = readContext (decryptionContexts s2') r).
Proof.
  intros Hctx. rewrite !myCallback_cases. cbv zeta. rewrite Hctx.
  destruct (processed (readContext (decryptionContexts s2) r)); [by split|].
  destruct (negb (callbackHash this =? _)); [by split|].
  destruct (negb (checkSignatures r cleartexts proof)); [by split|].
  destruct (negb (Z.of_nat (length cleartexts) =? 8)); [by split|].
  split; [done|]. intros s1' ev1 [= <- <-]. eexists. split; [done|].
  unfold_storage. by rewrite !readContext_insert_eq.
Qed.

(** *** The batch counter *)

(** A call either keeps the current batch and announces no batch, or moves
    to the next batch and announces it. *)
Lemma call_opens_at_most_one msg c s s' evs :
  dispatch this msg c s = Ok (tt, s', evs) ->
  (currentBatchId s' = currentBatchId s /\ openedBatches evs = []) \/
  (currentBatchId s' = currentBatchId s + 1 /\
   openedBatches evs = [currentBatchId s + 1]).
Proof.
  intros H. destruct c; simpl in H.
  11: { rewrite requestBatchSummary_cases in H. split_tests. by left. }
  11: { rewrite myCallback_cases in H. simpl in H. split_tests. by left. }
  7: { rewrite openNewBatch_cases in H. split_tests. by right. }
  all: unfold_call; split_tests; by left.
Qed.

Lemma run_batch_counter s txs :
  currentBatchId s <= currentBatchId (fst (run this s txs)) /\
  openedBatches (snd (run this s txs))
  = seqZ (currentBatchId s + 1) (currentBatchId (fst (run this s txs)) - currentBatchId s).
Proof.
  revert s. induction txs as [|[msg c] txs IH]; intros s; simpl.
  { split; [lia|]. by rewrite Z.sub_diag. }
  unfold execute. simpl.
  destruct (dispatch this msg c s) as [[[[] s1] ev1]|e] eqn:Hc.
  - destruct (IH s1) as [Hle Hev]. destruct (run this s1 txs) as [s2 ev2].
    simpl in *. unfold openedBatches in *. rewrite omap_app, Hev.
    destruct (call_opens_at_most_one msg c s s1 ev1 Hc) as [[Hcur Hop]|[Hcur Hop]];
      unfold openedBatches in Hop; rewrite Hop, Hcur in *.
    + by split; [lia|].
    + split; [lia|]. simpl.
      rewrite (seqZ_cons (currentBatchId s + 1)) by lia.
      do 2 f_equal; lia.
  - destruct (IH s) as [Hle Hev]. by destruct (run this s txs) as [s2 ev2].
Qed.

Lemma reachable_batches_numbered s :
  reachable this s ->
  1 <= currentBatchId s /\
  forall b, readBool (isBatchClosed s) b = true -> 1 <= b <= currentBatchId s.
Proof.
  induction 1 as [msg s evs Hd | s msg c s' evs _ [IH1 IH2] Hc].
  - unfold_call. simplify_eq. unfold_storage. split; [lia|].
    intros b. unfold readBool. simpl. by rewrite lookup_empty.
  - destruct c; simpl in Hc.
    11: { rewrite requestBatchSummary_cases in Hc. by split_tests. }
    11: { rewrite myCallback_cases in Hc. simpl in Hc. by split_tests. }
    7: { rewrite openNewBatch_cases in Hc. split_tests. unfold_storage.
         split; [lia|]. intros b Hb. apply IH2 in Hb. lia. }
    7: { rewrite closeCurrentBatch_cases in Hc. split_tests. unfold_storage.
         split; [lia|]. intros b. rewrite readBool_insert.
         case_decide; [lia | apply IH2]. }
    all: unfold_call; split_tests; unfold_storage; by split.
Qed.

(** X6.  [openNewBatch] sent by the owner is accepted exactly while the
    incremented counter fits in [uint256], and then moves the current batch
    to the next id and announces it; at the largest [uint256] it reverts with
    the arithmetic panic.  No run of calls ever lowers [currentBatchId].  In
    every reachable storage the current batch id is at least 1 and every
    closed batch has an id between 1 and the current one. *)
Theorem batch_counter :
  (forall msg s,
     sender msg = owner s ->
     (currentBatchId s + 1 <= MAX_UINT256 ->
        openNewBatch msg s
        = Ok (tt, set_currentBatchId (currentBatchId s + 1) s,
              [BatchOpened (currentBatchId s + 1)])) /\
     (MAX_UINT256 < currentBatchId s + 1 ->
        openNewBatch msg s = Revert (Panic 17)))
  /\
  (forall s txs, currentBatchId s <= currentBatchId (fst (run this s txs)))
  /\
  (forall s,
     reachable this s ->
     1 <= currentBatchId s /\
     forall b, readBool (isBatchClosed s) b = true -> 1 <= b <= currentBatchId s).
Proof.
  split_and!.
  - intros msg s Ho. rewrite openNewBatch_cases, Ho, Z.eqb_refl. simpl. split.
    + intros Hle. apply Z.leb_le in Hle. by rewrite Hle.
    + intros Hgt. apply Z.leb_gt in Hgt. by rewrite Hgt.
  - intros s txs. apply run_batch_counter.
  - apply reachable_batches_numbered.
Qed.

(** X7.  The log counts the batches.  Over the deployment and any run of
    calls after it, the [BatchOpened] events emitted so far carry, in order,
    the ids 1, 2, ... up to the current batch id: one per batch, none
    skipped, none repeated. *)
Theorem opened_events_number_the_batches (msg0 : Msg) (s0 : State)
    (ev0 : list Event) (txs : list (Msg * Call)) :
  deploy msg0 = Ok (tt, s0, ev0) ->
  openedBatches (ev0 ++ snd (run this s0 txs))
  = seqZ 1 (currentBatchId (fst (run this s0 txs))).
Proof.
  intros Hd. destruct (run_batch_counter s0 txs) as [Hle Hev].
  unfold openedBatches in *. rewrite omap_app, Hev.
  unfold_call. simplify_eq. unfold_storage.
  set (n := currentBatchId (fst (run this _ txs))) in *.
  rewrite (seqZ_cons 1 n) by lia. do 2 f_equal; lia.
Qed.

(** *** The rate limiter, continued *)

(** What an accepted rate-limited call writes. *)
Lemma rateLimited_accepted c cl msg s s' evs :
  classOf c = Some cl ->
  dispatch this msg c s = Ok (tt, s', evs) ->
  lastTime cl s' = <[sender msg := timestamp msg]> (lastTime cl s) /\
  (forall cl', cl' <> cl -> lastTime cl' s' = lastTime cl' s) /\
  owner s' = owner s /\ isProvider s' = isProvider s /\ paused s' = paused s /\
  cooldownSeconds s' = cooldownSeconds s /\
  currentBatchId s' = currentBatchId s /\ isBatchClosed s' = isBatchClosed s.
Proof.
  intros Hcl H. destruct c; simplify_eq/=.
  - rewrite depositTime_cases in H. split_tests. unfold_storage.
    split_and!; try done. by intros [].
  - rewrite withdrawTime_cases in H. split_tests. unfold_storage.
    split_and!; try done. by intros [].
  - rewrite requestBatchSummary_cases in H. split_tests. unfold_storage.
    split_and!; try done. by intros [].
Qed.

Lemma rateLimited_verdict c cl msg s :
  classOf c = Some cl ->
  verdict (dispatch this msg c s) =
    match gatesOutcome msg (lastTime cl) s with
    | Some e => Some e
    | None =>
        if batchTest c s then None
        else Some (match cl with
                   | Submission => BatchClosedError
                   | Disclosure => ErrorString "Batch not closed"
                   end)
    end.
Proof.
  intros Hcl. destruct c; simplify_eq/=.
  - rewrite depositTime_cases. destruct gatesOutcome; [done|].
    by destruct (readBool (isBatchClosed s) (currentBatchId s)).
  - rewrite withdrawTime_cases. destruct gatesOutcome; [done|].
    by destruct (readBool (isBatchClosed s) (currentBatchId s)).
  - rewrite requestBatchSummary_cases. destruct gatesOutcome; [done|].
    by destruct (readBool (isBatchClosed s) batchId_).
Qed.

(** X8.  A provider whose last time in a class was never written is limited
    from time zero: with the system not paused and [cooldownSeconds] within
    [uint256], the first action of the class reverts with [CooldownActive]
    at a timestamp below [cooldownSeconds], and at a timestamp from
    [cooldownSeconds] on it is accepted when its batch test passes, and then
    writes the timestamp as the account's first entry. *)
Theorem first_action_is_limited_from_zero (c : Call) (cl : CooldownClass)
    (msg : Msg) (s : State) :
  classOf c = Some cl ->
  lastTime cl s !! sender msg = None ->
  readBool (isProvider s) (sender msg) = true ->
  paused s = false ->
  cooldownSeconds s <= MAX_UINT256 ->
  (timestamp msg < cooldownSeconds s ->
     dispatch this msg c s = Revert CooldownActive) /\
  (cooldownSeconds s <= timestamp msg -> batchTest c s = true ->
     exists s' evs,
       dispatch this msg c s = Ok (tt, s', evs) /\
       lastTime cl s' !! sender msg = Some (timestamp msg)).
Proof.
  intros Hcl Hnone Hp Hq Hmax.
  assert (Hlast : readUint (lastTime cl s) (sender msg) = 0).
  { unfold readUint. by rewrite Hnone. }
  pose proof (rateLimited_cases this c cl msg s Hcl) as H.
  split.
  - intros Hearly.
    rewrite (gatesOutcome_early msg (lastTime cl) s) in H; rewrite ?Hlast; done.
  - intros Hlate Hb.
    assert (Hg : gatesOutcome msg (lastTime cl) s = None).
    { apply gatesOutcome_passes. unfold passesGates. rewrite Hlast. by split_and!. }
    rewrite Hg, Hb in H. destruct H as (s' & evs & H & _).
    exists s', evs. split; [done|].
    destruct (rateLimited_accepted c cl msg s s' evs Hcl H) as [-> _].
    apply lookup_insert_eq.
Qed.

(** X9.  The cooldowns are kept per account and per class.  After an
    accepted [depositTime], [withdrawTime] or [requestBatchSummary], a
    rate-limited call of the other class, or by another account, ends as it
    would have ended before: accepted, or reverted with the same error. *)
Theorem cooldowns_are_per_account_and_class (c c2 : Call) (cl cl2 : CooldownClass)
    (msg msg2 : Msg) (s s' : State) (evs : list Event) :
  classOf c = Some cl -> classOf c2 = Some cl2 ->
  dispatch this msg c s = Ok (tt, s', evs) ->
  cl2 <> cl \/ sender msg2 <> sender msg ->
  verdict (dispatch this msg2 c2 s') = verdict (dispatch this msg2 c2 s).
Proof.
  intros Hcl Hcl2 Hok Hother.
  destruct (rateLimited_accepted c cl msg s s' evs Hcl Hok)
    as (Hlast & Hframe & _ & Hprov & Hpau & Hcd & Hcur & Hclo).
  rewrite !(rateLimited_verdict c2 cl2) by done.
  assert (Hread : readUint (lastTime cl2 s') (sender msg2)
                  = readUint (lastTime cl2 s) (sender msg2)).
  { assert (Hdec : cl2 = cl \/ cl2 <> cl)
      by (destruct cl, cl2; (by left) || (by right)).
    destruct Hdec as [->|Hne].
    - destruct Hother as [|Hacc]; [done|].
      rewrite Hlast, readUint_insert. by case_decide.
    - by rewrite Hframe. }
  assert (Hb : batchTest c2 s' = batchTest c2 s).
  { destruct c2; simplify_eq/=; by rewrite ?Hclo, ?Hcur. }
  unfold gatesOutcome. by rewrite Hread, Hb, Hprov, Hpau, Hcd.
Qed.

(** *** Who writes what *)

(** X10.  The provider functions and the callback never touch the
    administrative storage: an accepted [depositTime], [withdrawTime],
    [requestBatchSummary] or [myCallback] leaves the owner, the provider set,
    the pause flag, the cooldown length, the current batch id and the closed
    batches as they were.  The [onlyOwner] functions never touch the
    recorded times and the decryption contexts. *)
Theorem storage_is_partitioned (msg : Msg) (c : Call) (s s' : State)
    (evs : list Event) :
  dispatch this msg c s = Ok (tt, s', evs) ->
  (ownerOnly c = false ->
     owner s' = owner s /\ isProvider s' = isProvider s /\ paused s' = paused s /\
     cooldownSeconds s' = cooldownSeconds s /\
     currentBatchId s' = currentBatchId s /\ isBatchClosed s' = isBatchClosed s)
  /\
  (ownerOnly c = true ->
     lastSubmissionTime s' = lastSubmissionTime s /\
     lastDecryptionRequestTime s' = lastDecryptionRequestTime s /\
     decryptionContexts s' = decryptionContexts s).
Proof.
  intros H. split; intros Hc; destruct c; try discriminate Hc; simpl in H.
  - rewrite depositTime_cases in H. split_tests.
  - rewrite withdrawTime_cases in H. split_tests.
  - rewrite requestBatchSummary_cases in H. split_tests.
  - rewrite myCallback_cases in H. simpl in H. split_tests.
  - rewrite transferOwnership_cases in H. split_tests.
  - rewrite addProvider_cases in H. split_tests.
  - rewrite removeProvider_cases in H. split_tests.
  - rewrite pause_cases in H. split_tests.
  - rewrite unpause_cases in H. split_tests.
  - rewrite setCooldownSeconds_cases in H. split_tests.
  - rewrite openNewBatch_cases in H. split_tests.
  - rewrite closeCurrentBatch_cases in H. split_tests.
Qed.

(** *** Request and callback together *)

(** X11.  Right after an accepted [requestBatchSummary] answered with the
    id [r], whatever the storage held for [r] before (a processed request
    included), a callback on [r] is accepted exactly when the hash it
    recomputes is the hash the request stored, the signatures check and the
    cleartexts are 8 bytes long; it then completes the batch of that request.
    When the two hashes differ every callback on [r] reverts with
    [StateMismatchError]. *)
Theorem callback_after_request (msg : Msg) (b r : Z) (s s1 : State)
    (ev1 : list Event) (cleartexts proof : list byte) :
  requestBatchSummary this msg b r s = Ok (tt, s1, ev1) ->
  let accepted :=
    callbackHash this = requestHash this /\
    checkSignatures r cleartexts proof = true /\
    length cleartexts = 8%nat in
  (accepted ->
     myCallback this r cleartexts proof s1 =
       Ok (tt,
           set_decryptionContext r
             {| batchId := b; stateHash := requestHash this; processed := true |} s1,
           [DecryptionCompleted r b (be_uint (take 4 cleartexts))
              (be_uint (take 4 (drop 4 cleartexts)))]))
  /\
  (forall s2 ev2, myCallback this r cleartexts proof s1 = Ok (tt, s2, ev2) -> accepted)
  /\
  (callbackHash this <> requestHash this ->
     myCallback this r cleartexts proof s1 = Revert StateMismatchError).
Proof.
  intros Hreq accepted. subst accepted.
  pose proof (requestBatchSummary_stored this msg b r s s1 ev1 Hreq) as Hctx.
  rewrite myCallback_cases. cbv zeta. rewrite Hctx. simpl. split_and!.
  - intros (Hh & Hsig & Hlen). by rewrite Hh, Z.eqb_refl, Hsig, Hlen.
  - intros s2 ev2 H. split_tests. bool_facts. split_and!; [done..|lia].
  - intros Hne. apply Z.eqb_neq in Hne. by rewrite Hne.
Qed.

(** No request stored or processed so far, and no hash but the two. *)
Lemma mismatch_invariant_call msg c s s' evs :
  callbackHash this <> 0 -> callbackHash this <> requestHash this ->
  (forall r, processed (readContext (decryptionContexts s) r) = false /\
             (stateHash (readContext (decryptionContexts s) r) = 0 \/
              stateHash (readContext (decryptionContexts s) r) = requestHash this)) ->
  dispatch this msg c s = Ok (tt, s', evs) ->
  (forall r, processed (readContext (decryptionContexts s') r) = false /\
             (stateHash (readContext (decryptionContexts s') r) = 0 \/
              stateHash (readContext (decryptionContexts s') r) = requestHash this)) /\
  Forall (fun e => isCompletion e = false) evs.
Proof.
  intros H0 Hne Inv H. destruct c; simpl in H.
  11: { rewrite requestBatchSummary_cases in H. split_tests. unfold_storage.
        split; [|by repeat constructor]. intros r.
        rewrite readContext_insert. case_decide; [simpl; by eauto | apply Inv]. }
  11: { rewrite myCallback_cases in H. simpl in H. split_tests. bool_facts.
        destruct (Inv requestId) as [_ [Hz | Hr]]; congruence. }
  all: unfold_call; split_tests; unfold_storage;
    (split; [apply Inv | by repeat constructor]).
Qed.

(** X12.  Disclosure is blocked when the callback does not rebuild the
    request's array.  If the hash that [myCallback] recomputes is neither
    zero nor the hash that [requestBatchSummary] stores, then over the
    deployment and any run of calls after it no [DecryptionCompleted] event
    is ever emitted and no request is ever marked processed. *)
Theorem mismatched_hashes_block_disclosure (msg0 : Msg) (s0 : State)
    (ev0 : list Event) (txs : list (Msg * Call)) :
  deploy msg0 = Ok (tt, s0, ev0) ->
  callbackHash this <> 0 ->
  callbackHash this <> requestHash this ->
  Forall (fun e => isCompletion e = false) (ev0 ++ snd (run this s0 txs)) /\
  forall r,
    processed (readContext (decryptionContexts (fst (run this s0 txs))) r) = false.
Proof.
  intros Hd H0 Hne.
  assert (Hinv0 : forall r,
             processed (readContext (decryptionContexts s0) r) = false /\
             (stateHash (readContext (decryptionContexts s0) r) = 0 \/
              stateHash (readContext (decryptionContexts s0) r) = requestHash this)).
  { unfold_call. simplify_eq. unfold_storage. intros r.
    unfold readContext. simpl. rewrite lookup_empty. simpl. by eauto. }
  assert (Hev0 : Forall (fun e => isCompletion e = false) ev0).
  { unfold_call. simplify_eq. by repeat constructor. }
  clear Hd.
  cut (Forall (fun e => isCompletion e = false) (snd (run this s0 txs)) /\
       forall r,
         processed (readContext (decryptionContexts (fst (run this s0 txs))) r)
         = false).
  { intros [Hev Hp]. split; [by apply Forall_app | done]. }
  revert s0 Hinv0. induction txs as [|[msg c] txs IH]; intros s Inv; simpl.
  { split; [constructor | apply Inv]. }
  unfold execute. simpl.
  destruct (dispatch this msg c s) as [[[[] s1] ev1]|e] eqn:Hc.
  - destruct (mismatch_invariant_call msg c s s1 ev1 H0 Hne Inv Hc) as [Inv1 Hev1].
    destruct (IH s1 Inv1) as [Hev Hp]. destruct (run this s1 txs) as [s2 ev2].
    simpl in *. split; [by apply Forall_app | done].
  - destruct (IH s Inv) as [Hev Hp]. by destruct (run this s txs) as [s2 ev2].
Qed.

(** X13.  [myCallback] does not ask whether the request id was ever issued.
    On an id with no stored context it compares the recomputed hash with
    zero: it reverts with [StateMismatchError] when that hash is not zero,
    and when it is zero, the signatures check and the cleartexts are 8 bytes
    long, it is accepted and emits a completion for batch id 0. *)
Theorem callback_on_unknown_request (r : Z) (cleartexts proof : list byte)
    (s : State) :
  decryptionContexts s !! r = None ->
  (callbackHash this <> 0 ->
     myCallback this r cleartexts proof s = Revert StateMismatchError)
  /\
  (callbackHash this = 0 ->
   checkSignatures r cleartexts proof = true ->
   length cleartexts = 8%nat ->
     myCallback this r cleartexts proof s =
       Ok (tt,
           set_decryptionContext r
             {| batchId := 0; stateHash := 0; processed := true |} s,
           [DecryptionCompleted r 0 (be_uint (take 4 cleartexts))
              (be_uint (take 4 (drop 4 cleartexts)))])).
Proof.
  intros Hnone. rewrite myCallback_cases. cbv zeta.
  assert (Hctx : readContext (decryptionContexts s) r = emptyContext).
  { unfold readContext. by rewrite Hnone. }
  rewrite Hctx. simpl. split.
  - intros Hne. apply Z.eqb_neq in Hne. by rewrite Hne.
  - intros Hz Hsig Hlen. by rewrite Hz, Hsig, Hlen.
Qed.

(** X14.  In every reachable storage each stored decryption context either
    names a batch that is closed and holds the hash that
    [requestBatchSummary] computes, or is the context that an accepted
    callback on a never issued id leaves behind (batch id 0, hash 0,
    processed), which can only exist when the recomputed hash is zero. *)
Theorem stored_requests_name_closed_batches (s : State) :
  reachable this s ->
  forall r ctx,
    decryptionContexts s !! r = Some ctx ->
    (readBool (isBatchClosed s) (batchId ctx) = true /\
     stateHash ctx = requestHash this)
    \/
    (callbackHash this = 0 /\
     ctx = {| batchId := 0; stateHash := 0; processed := true |}).
Proof.
  induction 1 as [msg s evs Hd | s msg c s' evs _ IH Hc].
  - unfold_call. simplify_eq. unfold_storage. intros r ctx.
    by rewrite lookup_empty.
  - assert (Hmono : forall b, readBool (isBatchClosed s) b = true ->
                              readBool (isBatchClosed s') b = true).
    { intros b. by apply (isBatchClosed_monotone this msg c s s' evs). }
    assert (Hkeep : decryptionContexts s' = decryptionContexts s ->
              forall r ctx, decryptionContexts s' !! r = Some ctx ->
              (readBool (isBatchClosed s') (batchId ctx) = true /\
               stateHash ctx = requestHash this) \/
              (callbackHash this = 0 /\
               ctx = {| batchId := 0; stateHash := 0; processed := true |})).
    { intros Heq r ctx Hl. rewrite Heq in Hl.
      destruct (IH r ctx Hl) as [[Hb Hh]|Hz]; [left | by right].
      split; [by apply Hmono | done]. }
    destruct c; simpl in Hc.
    11: { clear Hkeep. rewrite requestBatchSummary_cases in Hc.
          destruct gatesOutcome; [done|].
          destruct (readBool (isBatchClosed s) batchId_) eqn:Hb; [|done].
          simplify_eq. unfold_storage. intros r ctx.
          rewrite lookup_insert. case_decide.
          - intros [= <-]. simpl. by left.
          - apply IH. }
    11: { clear Hkeep Hmono. rewrite myCallback_cases in Hc. cbv zeta in Hc.
          destruct (processed _); [done|].
          destruct (negb (callbackHash this =? _)) eqn:Hh; [done|].
          destruct (negb (checkSignatures _ _ _)); [done|].
          destruct (negb (Z.of_nat _ =? 8)); [done|].
          simplify_eq. unfold_storage. bool_facts. intros r ctx.
          rewrite lookup_insert. case_decide; [|apply IH].
          intros [= <-]. simpl. unfold readContext in *.
          destruct (decryptionContexts s !! requestId) as [c0|] eqn:Hl; simpl in *.
          - destruct (IH requestId c0 Hl) as [[Hb Hr]|[Hz ->]]; [by left | by right].
          - by right. }
    all: apply Hkeep; unfold_call; split_tests.
Qed.

(** *** Cleartexts *)

Lemma byte_to_N_inj (a b : byte) : Byte.to_N a = Byte.to_N b -> a = b.
Proof.
  intros H. pose proof (Byte.of_to_N a) as Ha. rewrite H, Byte.of_to_N in Ha.
  congruence.
Qed.

Lemma be_uint_snoc (bs : list byte) (b : byte) :
  be_uint (bs ++ [b]) = be_uint bs * 256 + Z.of_N (Byte.to_N b).
Proof. unfold be_uint. by rewrite fold_left_app. Qed.

Lemma be_uint_inj (bs1 bs2 : list byte) :
  length bs1 = length bs2 -> be_uint bs1 = be_uint bs2 -> bs1 = bs2.
Proof.
  revert bs2. induction bs1 as [|b1 bs1 IH] using rev_ind; intros bs2 Hlen Heq.
  - destruct bs2; [done | discriminate Hlen].
  - destruct bs2 as [|b2 bs2 _] using rev_ind.
    { rewrite length_app in Hlen. simpl in Hlen. lia. }
    rewrite !length_app in Hlen. simpl in Hlen.
    rewrite !be_uint_snoc in Heq.
    pose proof (Byte.to_N_bounded b1). pose proof (Byte.to_N_bounded b2).
    assert (Hv : be_uint bs1 = be_uint bs2) by lia.
    assert (Hb : Byte.to_N b1 = Byte.to_N b2) by lia.
    apply byte_to_N_inj in Hb. subst b2.
    f_equal. apply IH; [lia | done].
Qed.

(** X15.  The decoding of the cleartexts loses nothing: two 8-byte
    cleartexts that [myCallback] decodes to the same deposited total and the
    same withdrawn total are the same bytes. *)
Theorem totals_determine_cleartexts (ct1 ct2 : list byte) :
  length ct1 = 8%nat -> length ct2 = 8%nat ->
  be_uint (take 4 ct1) = be_uint (take 4 ct2) ->
  be_uint (take 4 (drop 4 ct1)) = be_uint (take 4 (drop 4 ct2)) ->
  ct1 = ct2.
Proof.
  intros H1 H2 Hd Hw.
  rewrite <- (take_drop 4 ct1), <- (take_drop 4 ct2).
  apply be_uint_inj in Hd; [| rewrite !length_take; lia].
  apply be_uint_inj in Hw; [| rewrite !length_take, !length_drop; lia].
  rewrite !take_ge in Hw by (rewrite length_drop; lia).
  by rewrite Hd, Hw.
Qed.

(** *** Closing and reopening *)

Lemma set_isBatchClosed_again s :
  readBool (isBatchClosed s) (currentBatchId s) = true ->
  set_isBatchClosed (currentBatchId s) true s = s.
Proof.
  intros H. destruct s as [o p q cd ls ld cur cl ctx]. unfold set_isBatchClosed.
  simpl in *. f_equal. apply insert_id. unfold readBool in H.
  destruct (cl !! cur) as [[]|]; simpl in H; congruence.
Qed.

(** X16.  [closeCurrentBatch] does not test whether the batch is already
    closed.  Sent by the owner it is always accepted and emits [BatchClosed];
    on a batch that is already closed it leaves the storage exactly as it
    is, so closing twice in a row gives the storage of closing once and two
    [BatchClosed] events for the same batch. *)
Theorem closing_twice (msg : Msg) (s : State) :
  sender msg = owner s ->
  (readBool (isBatchClosed s) (currentBatchId s) = true ->
     closeCurrentBatch msg s = Ok (tt, s, [BatchClosed (currentBatchId s)]))
  /\
  run this s [(msg, call_closeCurrentBatch); (msg, call_closeCurrentBatch)]
  = (set_isBatchClosed (currentBatchId s) true s,
     [BatchClosed (currentBatchId s); BatchClosed (currentBatchId s)]).
Proof.
  intros Ho. split.
  - intros Hc. rewrite closeCurrentBatch_cases, Ho, Z.eqb_refl. simpl.
    by rewrite set_isBatchClosed_again.
  - simpl. unfold execute. simpl.
    rewrite closeCurrentBatch_cases, Ho, Z.eqb_refl. simpl.
    rewrite closeCurrentBatch_cases. unfold_storage. rewrite Ho, Z.eqb_refl. simpl.
    do 2 f_equal. by rewrite insert_insert_eq.
Qed.

(** X17.  Closing the current batch and opening the next one lets deposits
    in again.  In a reachable storage, after an accepted [closeCurrentBatch]
    a deposit that passes the three modifiers reverts with
    [BatchClosedError]; after the accepted [openNewBatch] that follows, the
    same deposit is accepted and its event carries the new batch id. *)
Theorem new_batch_accepts_deposits_again (msgC msgO msgD : Msg) (hours : Z)
    (s s1 s2 : State) (e1 e2 : list Event) :
  reachable this s ->
  closeCurrentBatch msgC s = Ok (tt, s1, e1) ->
  openNewBatch msgO s1 = Ok (tt, s2, e2) ->
  passesGates msgD lastSubmissionTime s2 ->
  depositTime msgD hours s1 = Revert BatchClosedError /\
  depositTime msgD hours s2
  = Ok (tt, set_lastSubmissionTime (sender msgD) (timestamp msgD) s2,
        [TimeDeposited (sender msgD) (currentBatchId s + 1) (asEuint32 hours)]).
Proof.
  intros Hr Hc Ho Hg.
  apply reachable_batches_numbered in Hr as [_ Hcl].
  rewrite closeCurrentBatch_cases in Hc. rewrite openNewBatch_cases in Ho.
  destruct (negb (sender msgC =? owner s)); [done|]. simplify_eq.
  destruct (negb (sender msgO =? _)); [done|].
  destruct (_ <=? MAX_UINT256); [|done]. simplify_eq.
  rewrite !depositTime_cases.
  assert (Hg1 : gatesOutcome msgD lastSubmissionTime
                  (set_isBatchClosed (currentBatchId s) true s) = None).
  { apply gatesOutcome_passes. apply Hg. }
  apply gatesOutcome_passes in Hg. rewrite Hg, Hg1. unfold_storage.
  rewrite readBool_insert_eq. split; [done|].
  rewrite readBool_insert. case_decide; [lia|].
  destruct (readBool (isBatchClosed s) (currentBatchId s + 1)) eqn:Hb; [|done].
  apply Hcl in Hb. lia.
Qed.

(** *** Changing the cooldown, and deployment *)


(** X19.  Deployment never fails.  It makes the deployer the owner and the
    only provider, opens batch 1, sets the cooldown to 60 seconds, leaves
    the system running, and emits [ProviderAdded] for the deployer and
    [BatchOpened] for batch 1.  Right after it every other account gets
    [NotOwner] from the [onlyOwner] functions and [NotProvider] from the
    provider functions. *)
Theorem deployment (msg0 : Msg) :
  exists s0,
    deploy msg0 = Ok (tt, s0, [ProviderAdded (sender msg0); BatchOpened 1]) /\
    owner s0 = sender msg0 /\
    (forall a, readBool (isProvider s0) a = true <-> a = sender msg0) /\
    paused s0 = false /\ cooldownSeconds s0 = 60 /\
    currentBatchId s0 = 1 /\
    (forall b, readBool (isBatchClosed s0) b = false) /\
    (forall msg c,
       sender msg <> sender msg0 ->
       (ownerOnly c = true -> dispatch this msg c s0 = Revert NotOwner) /\
       (forall cl, classOf c = Some cl -> dispatch this msg c s0 = Revert NotProvider)).
Proof.
  eexists. split; [reflexivity|]. unfold_storage.
  assert (Hprov : forall a,
            readBool (<[sender msg0 := true]> (isProvider zeroState)) a = true
            <-> a = sender msg0).
  { intros a. rewrite readBool_insert. case_decide; [by split|].
    unfold readBool. simpl. rewrite lookup_empty. simpl. split; [done | congruence]. }
  split_and!; try done.
  intros msg c Hne. split.
  - intros Hc. by apply ownerOnly_stranger.
  - intros cl Hcl.
    match goal with
    | |- dispatch _ _ _ ?s0 = _ =>
        pose proof (rateLimited_cases this c cl msg s0 Hcl) as H
    end.
      unfold gatesOutcome in H. simpl in H.
      destruct (readBool _ (sender msg)) eqn:Hp; [|done].
      apply Hprov in Hp. congruence.
Qed.

(** X20.  After an accepted [removeProvider] of an account, the three
    provider functions revert with [NotProvider] for that account.  Its
    recorded times are not erased: when the owner adds the account back, it
    is a provider again and both its last submission time and its last
    request time are what they were before the removal. *)
Theorem removed_provider_is_locked_out (msg : Msg) (account : Z) (s s1 : State)
    (ev1 : list Event) :
  removeProvider msg account s = Ok (tt, s1, ev1) ->
  (forall msg' c cl,
     classOf c = Some cl -> sender msg' = account ->
     dispatch this msg' c s1 = Revert NotProvider)
  /\
  (forall msgA s2 ev2,
     addProvider msgA account s1 = Ok (tt, s2, ev2) ->
     readBool (isProvider s2) account = true /\
     lastSubmissionTime s2 = lastSubmissionTime s /\
     lastDecryptionRequestTime s2 = lastDecryptionRequestTime s).
Proof.
  rewrite removeProvider_cases. intros H.
  assert (Hgone : readBool (isProvider s1) account = false /\
                  lastSubmissionTime s1 = lastSubmissionTime s /\
                  lastDecryptionRequestTime s1 = lastDecryptionRequestTime s).
  { destruct (negb (sender msg =? owner s)); [done|].
    destruct (readBool (isProvider s) account) eqn:Hp; simplify_eq; [|done].
    unfold_storage. by rewrite readBool_insert_eq. }
  destruct Hgone as (Hp & Hls & Hld). split.
  - intros msg' c cl Hcl Hs.
    pose proof (rateLimited_cases this c cl msg' s1 Hcl) as Hr.
    unfold gatesOutcome in Hr. by rewrite Hs, Hp in Hr.
  - intros msgA s2 ev2. rewrite addProvider_cases, Hp.
    destruct (negb (sender msgA =? owner s1)); [done|].
    intros [= <- <-]. unfold_storage. by rewrite readBool_insert_eq.
Qed.

End Coverage.

(** ** Replay protection over whole runs *)

Section Replay.

Context {fhe : FHEVM}.
Variable this : Z.









End Replay.

(** ** Concrete runs *)

Section Runs.

Import Scenario.

Lemma reachable_deployed : reachable this deployed.
Proof.
  apply (reachable_deploy this (at_ alice 1000) deployed
           [ProviderAdded alice; BatchOpened 1]).
  by vm_compute.
Qed.

Lemma reachable_closed1 : reachable this closed1.
Proof. apply reachable_run, reachable_deployed. Qed.

Lemma reachable_requested : reachable this requested.
Proof. apply reachable_run, reachable_closed1. Qed.

Lemma reachable_deposited : reachable this deposited.
Proof. apply reachable_run, reachable_deployed. Qed.

Lemma reachable_longCooldown : reachable this longCooldown.
Proof. apply reachable_run, reachable_deposited. Qed.

Lemma reachable_closed2 : reachable this closed2.
Proof. apply reachable_run, reachable_deposited. Qed.

Lemma reachable_deployed_tagged : reachable (fhe := taggedFHE) this deployed.
Proof.
  apply (reachable_deploy (fhe := taggedFHE) this (at_ alice 1000) deployed
           [ProviderAdded alice; BatchOpened 1]).
  by vm_compute.
Qed.

Lemma reachable_requestedT : reachable (fhe := taggedFHE) this requestedT.
Proof. apply (reachable_run (fhe := taggedFHE)), reachable_deployed_tagged. Qed.

Lemma alice_passes_at_2000 : passesGates (at_ alice 2000) lastSubmissionTime deployed.
Proof. by split_and!; vm_compute. Qed.

(** *** C1 *)

(** In the deployed contract, the deposit of 3 hours by [alice] at time 2000
    is accepted, emits the handle and writes her last submission time. *)
Lemma accepted_submission_effect_witness :
  depositTime (at_ alice 2000) 3 deployed
  = Ok (tt, set_lastSubmissionTime alice 2000 deployed, [TimeDeposited alice 1 3]).
Proof.
  apply (proj1 (accepted_submission_effect (at_ alice 2000) 3 deployed
                  (set_lastSubmissionTime alice 2000 deployed)
                  [TimeDeposited alice 1 3])).
  split_and!; [apply alice_passes_at_2000 | by vm_compute | done | done].
Defined.

(** C1 as stated fails: no function of the storage is a running total that
    every accepted deposit adds its encrypted amount to.  In the deployed
    contract the deposits of 3 hours and of 5 hours by [alice] at time 2000
    are both accepted and end in the same storage, while adding the handle
    of 3 and adding the handle of 5 differ. *)
Lemma deposit_adds_to_no_aggregate :
  ~ exists totalDeposited : State -> Z -> euint32,
      forall hours s' evs,
        depositTime (at_ alice 2000) hours deployed = Ok (tt, s', evs) ->
        totalDeposited s' (currentBatchId deployed)
        = FHE_add (totalDeposited deployed (currentBatchId deployed)) (asEuint32 hours).
Proof.
  intros [total H].
  pose proof (H 3 (set_lastSubmissionTime alice 2000 deployed)
                [TimeDeposited alice 1 3] ltac:(by vm_compute)) as H3.
  pose proof (H 5 (set_lastSubmissionTime alice 2000 deployed)
                [TimeDeposited alice 1 5] ltac:(by vm_compute)) as H5.
  rewrite H3 in H5. simpl in H5. clear H H3.
  set (x := total deployed 1) in *. symmetry in H5.
  assert (Hm : (x + 5) mod 2 ^ 32 = ((x + 3) mod 2 ^ 32 + 2) mod 2 ^ 32).
  { rewrite Zplus_mod_idemp_l. f_equal. lia. }
  pose proof (Z.mod_pos_bound (x + 3) (2 ^ 32) ltac:(lia)) as Hb.
  rewrite Hm in H5. set (a := (x + 3) mod 2 ^ 32) in *.
  destruct (Z_lt_le_dec (a + 2) (2 ^ 32)) as [Hlt | Hge].
  - rewrite Z.mod_small in H5 by lia. lia.
  - replace (a + 2) with ((a + 2 - 2 ^ 32) + 1 * 2 ^ 32) in H5 by ring.
    rewrite Z_mod_plus_full, Z.mod_small in H5 by lia. lia.
Qed.

(** *** C2 *)

(** In the deployed contract batch 1 is the open one, and after [alice] opens
    a new batch it is batch 2. *)
Lemma at_most_one_open_batch_witness :
  1 = currentBatchId deployed /\
  isOpen (set_currentBatchId 2 deployed) 2 = true.
Proof.
  destruct (at_most_one_open_batch this deployed reachable_deployed)
    as (Hcur & _ & Hopen & _).
  split.
  - apply Hcur. by vm_compute.
  - apply (Hopen (at_ alice 1500) (set_currentBatchId 2 deployed) [BatchOpened 2]
             ltac:(by vm_compute)).
    by vm_compute.
Defined.

(** C2 as stated fails: after [alice] deploys the contract and closes
    batch 1, the storage is reachable and no batch is open. *)
Lemma closing_leaves_no_open_batch :
  reachable this closed1 /\ ~ exists b, isOpen closed1 b = true.
Proof.
  split; [apply reachable_closed1|]. intros [b H]. unfold isOpen in H.
  apply andb_true_iff in H as [H1 H2]. apply Z.eqb_eq in H1. subst b.
  by vm_compute in H2.
Qed.

(** *** C3 *)


(** *** C4 *)

(** With tagged handles: the request of [alice] for the closed batch 1 is
    accepted and stores the hash of the array of two encrypted zeros; the
    callback on it, with a proof that passes the signature check, recomputes
    the hash of another array and reverts with [StateMismatchError]. *)
Lemma commitment_checked_before_proof_witness :
  (exists s',
     requestBatchSummary (fhe := taggedFHE) this (at_ alice 1100) 1 0 closed1
     = Ok (tt, s', [DecryptionRequested 0 1]) /\
     readContext (decryptionContexts s') 0
     = {| batchId := 1;
          stateHash := @keccak256_encode taggedFHE [2 ^ 32; 2 ^ 32] this;
          processed := false |}) /\
  @callbackHash taggedFHE this = @keccak256_encode taggedFHE [2 ^ 32; 0] this /\
  @checkSignatures taggedFHE 0 eight sig = true /\
  myCallback (fhe := taggedFHE) this 0 eight sig requestedT
  = Revert StateMismatchError.
Proof.
  destruct (commitment_checked_before_proof (fhe := taggedFHE) this)
    as (Hstore & _ & Hhash & Hmis & _ & _).
  split_and!.
  - apply (Hstore (at_ alice 1100) 1 0 closed1).
    + by split_and!; vm_compute.
    + by vm_compute.
  - exact Hhash.
  - reflexivity.
  - apply (Hmis (at_ 99 1200) requestedT 0 eight sig reachable_requestedT).
    by vm_compute.
Defined.

(** *** C5 *)

Lemma commitment_is_constant_witness :
  stateHash
    (readContext
       (decryptionContexts
          (fst (run this closed1 [(at_ alice 1100, call_requestBatchSummary 1 0)]))) 0)
  = stateHash
      (readContext
         (decryptionContexts
            (fst (run this closed2 [(at_ alice 2400, call_requestBatchSummary 2 1)]))) 1).
Proof.
  apply (commitment_is_constant this (at_ alice 1100) (at_ alice 2400) 1 2 0 1
           closed1 closed2 _ _ [DecryptionRequested 0 1] [DecryptionRequested 1 2]).
  - by vm_compute.
  - by vm_compute.
Defined.

(** *** C6 *)



(** *** C7 *)

Lemma cooldown_contract_witness :
  depositTime (at_ alice 10) 3 deployed = Revert CooldownActive /\
  withdrawTime (at_ alice 2059) 4 deposited = Revert CooldownActive /\
  exists s'' evs', withdrawTime (at_ alice 2060) 4 deposited = Ok (tt, s'', evs').
Proof.
  split.
  - apply (proj1 (cooldown_contract this Submission (call_depositTime 3)
                    (at_ alice 10) deployed eq_refl)); by vm_compute.
  - destruct (proj2 (proj2 (cooldown_contract this Submission (call_depositTime 3)
                              (at_ alice 2000) deployed eq_refl))
                deposited [TimeDeposited alice 1 3] ltac:(by vm_compute))
      as (_ & _ & _ & Hnext).
    split.
    + apply (Hnext (call_withdrawTime 4) (at_ alice 2059)); by vm_compute.
    + apply (Hnext (call_withdrawTime 4) (at_ alice 2060)); by vm_compute.
Defined.

(** C7 as stated fails.  [alice] is a provider, the system is not paused,
    her last submission is at 2000 and the cooldown is the largest [uint256],
    so at time 2020 the sum of the two is far ahead; her deposit reverts with
    the arithmetic panic of the checked sum, not with [CooldownActive].
    Also: [bob], not a provider, calling at time 10, before 0 + 60, gets
    [NotProvider]; and the deposit of [alice] at time 2000 on the closed
    batch 1 passes the limiter, reverts in the body and records no time. *)
Lemma cooldown_overflow_panics :
  (reachable this longCooldown /\
   readBool (isProvider longCooldown) alice = true /\
   paused longCooldown = false /\
   2020 < readUint (lastSubmissionTime longCooldown) alice
          + cooldownSeconds longCooldown /\
   depositTime (at_ alice 2020) 3 longCooldown = Revert (Panic 17) /\
   depositTime (at_ alice 2020) 3 longCooldown <> Revert CooldownActive)
  /\
  (10 < readUint (lastSubmissionTime deployed) bob + cooldownSeconds deployed /\
   depositTime (at_ bob 10) 3 deployed = Revert NotProvider)
  /\
  (readUint (lastSubmissionTime closed1) alice + cooldownSeconds closed1 <= 2000 /\
   depositTime (at_ alice 2000) 3 closed1 = Revert BatchClosedError /\
   readUint
     (lastSubmissionTime (fst (execute this closed1 (at_ alice 2000, call_depositTime 3))))
     alice = 0).
Proof. split_and!; [apply reachable_longCooldown | by vm_compute ..]. Qed.

(** *** C8 *)



(** *** C9 *)



(** *** C10 *)

Lemma provider_admin_idempotent_witness :
  execute this (set_isProvider bob true deployed) (at_ alice 2000, call_addProvider bob)
  = (set_isProvider bob true deployed, []).
Proof.
  apply (proj1 (provider_admin_idempotent this (at_ alice 2000) bob deployed)
           (set_isProvider bob true deployed) [ProviderAdded bob]).
  by vm_compute.
Defined.

End Runs.

(** ** Concrete runs for the rest of the contract *)

Section CoverageRuns.

Import Scenario.

Lemma owner_only_functions_witness :
  dispatch this (at_ bob 2000) call_pause deployed = Revert NotOwner /\
  execute this deployed (at_ bob 2000, call_pause) = (deployed, []).
Proof.
  apply (proj1 (owner_only_functions this (at_ bob 2000) call_pause deployed eq_refl)).
  by vm_compute.
Defined.

Lemma ownership_handover_witness :
  dispatch this (at_ alice 3000) call_pause handedOver = Revert NotOwner /\
  depositTime (at_ bob 3000) 1 handedOver = Revert NotProvider.
Proof.
  destruct (ownership_handover this (at_ alice 1020) bob deployed handedOver
              [OwnershipTransferred alice bob] ltac:(by vm_compute))
    as (_ & _ & _ & Hadmin & Hprov).
  split.
  - apply (Hadmin (at_ alice 3000) call_pause); by vm_compute.
  - apply (Hprov (at_ bob 3000) (call_depositTime 1) Submission); by vm_compute.
Defined.

Lemma pause_unpause_round_trip_witness :
  run this deployed [(at_ alice 1020, call_pause); (at_ alice 1020, call_unpause)]
  = (deployed, [Paused alice; Unpaused alice]).
Proof.
  destruct (pause_unpause_round_trip this (at_ alice 1020) deployed
              ltac:(by vm_compute)) as (_ & Hrun & _).
  apply Hrun. by vm_compute.
Defined.

Lemma paused_blocks_provider_functions_witness :
  depositTime (at_ alice 2000) 3 pausedState = Revert PausedError.
Proof.
  apply (paused_blocks_provider_functions this (at_ alice 2000) (call_depositTime 3)
           Submission pausedState eq_refl);
    by vm_compute.
Defined.

Lemma callback_is_ungated_witness :
  verdict (myCallback this 0 eight sig requested)
  = verdict (myCallback this 0 eight sig (set_paused true (set_owner bob requested))).
Proof.
  apply (callback_is_ungated this 0 eight sig requested
           (set_paused true (set_owner bob requested))).
  by vm_compute.
Defined.

Lemma batch_counter_witness :
  openNewBatch (at_ alice 1500) (set_currentBatchId MAX_UINT256 deployed)
  = Revert (Panic 17) /\
  1 <= currentBatchId closed2.
Proof.
  destruct (batch_counter this) as (Hopen & _ & Hreach). split.
  - destruct (Hopen (at_ alice 1500) (set_currentBatchId MAX_UINT256 deployed)
                ltac:(by vm_compute)) as [_ Hmax].
    apply Hmax. by vm_compute.
  - destruct (Hreach closed2 reachable_closed2) as [Hone _]. exact Hone.
Defined.

Lemma opened_events_number_the_batches_witness :
  openedBatches
    ([ProviderAdded alice; BatchOpened 1]
     ++ snd (run this deployed
               [(at_ alice 2100, call_closeCurrentBatch);
                (at_ alice 2200, call_openNewBatch);
                (at_ bob 2250, call_openNewBatch);
                (at_ alice 2300, call_openNewBatch)]))
  = seqZ 1 (currentBatchId
              (fst (run this deployed
                      [(at_ alice 2100, call_closeCurrentBatch);
                       (at_ alice 2200, call_openNewBatch);
                       (at_ bob 2250, call_openNewBatch);
                       (at_ alice 2300, call_openNewBatch)]))).
Proof.
  apply (opened_events_number_the_batches this (at_ alice 1000) deployed).
  by vm_compute.
Defined.

Lemma first_action_is_limited_from_zero_witness :
  depositTime (at_ carol 59) 2 withCarol = Revert CooldownActive /\
  exists s' evs, depositTime (at_ carol 60) 2 withCarol = Ok (tt, s', evs) /\
                 lastSubmissionTime s' !! carol = Some 60.
Proof.
  split.
  - apply (first_action_is_limited_from_zero this (call_depositTime 2) Submission
             (at_ carol 59) withCarol eq_refl); by vm_compute.
  - apply (first_action_is_limited_from_zero this (call_depositTime 2) Submission
             (at_ carol 60) withCarol eq_refl); by vm_compute.
Defined.

Lemma cooldowns_are_per_account_and_class_witness :
  verdict (dispatch this (at_ alice 2001) (call_requestBatchSummary 1 0) deposited)
  = verdict (dispatch this (at_ alice 2001) (call_requestBatchSummary 1 0) deployed).
Proof.
  apply (cooldowns_are_per_account_and_class this (call_depositTime 3)
           (call_requestBatchSummary 1 0) Submission Disclosure
           (at_ alice 2000) (at_ alice 2001) deployed deposited
           [TimeDeposited alice 1 3] eq_refl eq_refl).
  - by vm_compute.
  - by left.
Defined.

Lemma storage_is_partitioned_witness :
  owner deposited = owner deployed /\ isProvider deposited = isProvider deployed /\
  paused deposited = paused deployed /\
  cooldownSeconds deposited = cooldownSeconds deployed /\
  currentBatchId deposited = currentBatchId deployed /\
  isBatchClosed deposited = isBatchClosed deployed.
Proof.
  apply (proj1 (storage_is_partitioned this (at_ alice 2000) (call_depositTime 3)
                  deployed deposited [TimeDeposited alice 1 3] ltac:(by vm_compute))).
  reflexivity.
Defined.

(** With tagged handles the two hashes differ, and the callback on the
    request just accepted reverts. *)
Lemma callback_after_request_witness :
  myCallback (fhe := taggedFHE) this 0 eight sig requestedT
  = Revert StateMismatchError.
Proof.
  destruct (callback_after_request (fhe := taggedFHE) this (at_ alice 1100) 1 0
              closed1 requestedT [DecryptionRequested 0 1] eight sig
              ltac:(by vm_compute))
    as (_ & _ & Hmis).
  apply Hmis. by vm_compute.
Defined.

Lemma mismatched_hashes_block_disclosure_witness :
  Forall (fun e => isCompletion e = false)
    ([ProviderAdded alice; BatchOpened 1]
     ++ snd (run (fhe := taggedFHE) this deployed taggedHistory)).
Proof.
  apply (mismatched_hashes_block_disclosure (fhe := taggedFHE) this
           (at_ alice 1000) deployed [ProviderAdded alice; BatchOpened 1]
           taggedHistory);
    by vm_compute.
Defined.

Lemma callback_on_unknown_request_witness :
  myCallback this 5 eight sig deployed = Revert StateMismatchError.
Proof.
  apply (proj1 (callback_on_unknown_request this 5 eight sig deployed
                  ltac:(by vm_compute))).
  by vm_compute.
Defined.

Lemma stored_requests_name_closed_batches_witness :
  (readBool (isBatchClosed requested) 1 = true /\
   requestHash this = requestHash this)
  \/
  (callbackHash this = 0 /\
   {| batchId := 1; stateHash := requestHash this; processed := false |}
   = {| batchId := 0; stateHash := 0; processed := true |}).
Proof.
  apply (stored_requests_name_closed_batches this requested reachable_requested 0
           {| batchId := 1; stateHash := requestHash this; processed := false |}).
  by vm_compute.
Defined.

Lemma totals_determine_cleartexts_witness :
  [x00; x00; x00; x05; x00; x00; x00; x00] = eight.
Proof.
  apply totals_determine_cleartexts; by vm_compute.
Defined.

Lemma closing_twice_witness :
  closeCurrentBatch (at_ alice 1500) closed1
  = Ok (tt, closed1, [BatchClosed (currentBatchId closed1)]).
Proof.
  apply (proj1 (closing_twice this (at_ alice 1500) closed1 ltac:(by vm_compute))).
  by vm_compute.
Defined.

Lemma new_batch_accepts_deposits_again_witness :
  depositTime (at_ alice 2000) 3 closed1 = Revert BatchClosedError /\
  depositTime (at_ alice 2000) 3 (set_currentBatchId 2 closed1)
  = Ok (tt, set_lastSubmissionTime alice 2000 (set_currentBatchId 2 closed1),
        [TimeDeposited alice (currentBatchId deployed + 1) 3]).
Proof.
  apply (new_batch_accepts_deposits_again this (at_ alice 1010) (at_ alice 1500)
           (at_ alice 2000) 3 deployed closed1 (set_currentBatchId 2 closed1)
           [BatchClosed 1] [BatchOpened 2] reachable_deployed).
  - by vm_compute.
  - by vm_compute.
  - by split_and!; vm_compute.
Defined.


Lemma deployment_witness :
  exists s0,
    deploy (at_ alice 1000)
    = Ok (tt, s0, [ProviderAdded alice; BatchOpened 1]) /\
    dispatch this (at_ bob 1005) call_pause s0 = Revert NotOwner /\
    dispatch this (at_ bob 1005) (call_depositTime 1) s0 = Revert NotProvider.
Proof.
  destruct (deployment this (at_ alice 1000))
    as (s0 & Hd & _ & _ & _ & _ & _ & _ & Hothers).
  exists s0. split; [exact Hd|].
  destruct (Hothers (at_ bob 1005) call_pause ltac:(by vm_compute)) as [Hadmin _].
  destruct (Hothers (at_ bob 1005) (call_depositTime 1) ltac:(by vm_compute))
    as [_ Hprov].
  split; [by apply Hadmin | by apply (Hprov Submission)].
Defined.

Lemma removed_provider_is_locked_out_witness :
  depositTime (at_ alice 3000) 1 (set_isProvider alice false deposited)
  = Revert NotProvider /\
  lastSubmissionTime (set_isProvider alice true (set_isProvider alice false deposited))
  = lastSubmissionTime deposited.
Proof.
  destruct (removed_provider_is_locked_out this (at_ alice 2500) alice deposited
              (set_isProvider alice false deposited) [ProviderRemoved alice]
              ltac:(by vm_compute)) as [Hout Hback].
  split.
  - apply (Hout (at_ alice 3000) (call_depositTime 1) Submission); by vm_compute.
  - apply (Hback (at_ alice 2600)
             (set_isProvider alice true (set_isProvider alice false deposited))
             [ProviderAdded alice]).
    by vm_compute.
Defined.

End CoverageRuns.
